(** * CircuiTikZ-Designer: geometric interaction engine

    A shallow embedding of the snap-point model ([SnapPoint]), the
    component-symbol anchor parser ([ComponentSymbol]), the orthogonal line
    router ([LineDrawer]) and the selection engine ([SelectionController]),
    with the properties of the design document stated against them.

    Conventions of the embedding:
    - a JavaScript [number] is an exact rational ([Qc], canonical fractions,
      so that [===] is Leibniz equality); rounding, [NaN] and the infinities
      are not represented;
    - a method that mutates [this] is a function from the object state to the
      new state; callbacks that are handed to the object are recorded as the
      notifications they receive;
    - a thrown JavaScript exception is the [Throw] case of [result]. *)

From Stdlib Require Import QArith Qcanon Qround ZArith Lia Lqa Ascii String.
From stdpp Require Import base numbers functions gmap strings list.

Local Open Scope Qc_scope.

(** ** Numbers *)

Abbreviation Number := Qc (only parsing).

(** Integer literals of the source. *)
Abbreviation num := Qc_of_Z (only parsing).

(** [Math.PI]: the double nearest to pi, 0x1.921fb54442d18p+1. *)
Definition Math_PI : Number := Q2Qc (884279719003555 # 281474976710656).

(** [Math.sin] and [Math.cos] belong to the host; the embedding is
    parametric in them. *)
Class Trig : Type := {
  Math_sin : Number -> Number;
  Math_cos : Number -> Number
}.

(** [a < b], [a > b], [a === b] as booleans. *)
Definition ltb (a b : Number) : bool := bool_decide (a < b).
Definition gtb (a b : Number) : bool := bool_decide (b < a).
Definition eqb (a b : Number) : bool := bool_decide (a = b).

(** [Number.isInteger(q)]. *)
Definition isInteger (q : Number) : bool :=
  bool_decide (q = Qc_of_Z (Qfloor q)).

(** Rounding toward zero, as the quotient of [%] does. *)
Definition trunc (q : Number) : Z :=
  if ltb q 0 then (- Qfloor (- q))%Z else Qfloor q.

(** [a % b]: the remainder has the sign of the dividend. *)
Definition rem (a b : Number) : Number := a - b * Qc_of_Z (trunc (a / b)).

(** [arr[q]] for an array literal [arr] and a number [q] that is an index of
    it.  Outside the array JavaScript yields [undefined]; [recalculate] only
    indexes with 0..3 (see [quadrant_index_bounds]). *)
Definition at_index (arr : list Number) (q : Number) : Number :=
  nth (Z.to_nat (Qfloor q)) arr 0.

(** ** Errors *)

Inductive JsError : Type :=
| TypeError
| Error (message : string).

Inductive result (A : Type) : Type :=
| Ok (a : A)
| Throw (e : JsError).
Arguments Ok {A} a.
Arguments Throw {A} e.

Definition bind {A B : Type} (r : result A) (k : A -> result B) : result B :=
  match r with
  | Ok a => k a
  | Throw e => Throw e
  end.

Notation "'try' x ':=' r 'in' k" := (bind r (fun x => k))
  (at level 10, x name, r at level 100, k at level 200).

(** ** Points and boxes of the drawing library *)

Module Point.
Record t : Type := mk { x : Number; y : Number }.

Definition plus (p q : t) : t := mk (x p + x q) (y p + y q).
Definition minus (p q : t) : t := mk (x p - x q) (y p - y q).
End Point.

Module Box.
Record t : Type := mk { x : Number; y : Number; width : Number; height : Number }.

Definition cx (b : t) : Number := x b + width b / (num 2).
Definition cy (b : t) : Number := y b + height b / (num 2).

Definition min (a b : Number) : Number := if ltb a b then a else b.
Definition max (a b : Number) : Number := if ltb a b then b else a.

(** [Box.merge]: the smallest box around both. *)
Definition merge (a b : t) : t :=
  let x0 := min (x a) (x b) in
  let y0 := min (y a) (y b) in
  mk x0 y0
     (max (x a + width a) (x b + width b) - x0)
     (max (y a + height a) (y b + height b) - y0).
End Box.

(** ** SnapPoint *)

Module SnapPoint.

(** [PointAlike]: a point object or a two-element array. *)
Inductive PointAlike : Type :=
| PObj (x y : Number)
| PArr (x y : Number).

(** [Array.isArray(p) ? p[0] : p.x] and the same for y. *)
Definition coordX (p : PointAlike) : Number :=
  match p with PObj x _ => x | PArr x _ => x end.
Definition coordY (p : PointAlike) : Number :=
  match p with PObj _ y => y | PArr _ y => y end.

(** The owning instance, as far as the snap point looks at it. *)
Record Owner : Type := {
  nodeName : option string;
  mid : option PointAlike
}.

(** A registered change listener is known by its identity. *)
Definition Listener : Type := nat.

(** One call [listener(this, oldX, oldY, isDeleted)]; [point] is the
    position of [this] at the time of the call. *)
Record Notification : Type := {
  listener : Listener;
  point : Point.t;
  oldX : Number;
  oldY : Number;
  isDeleted : bool
}.

Record t : Type := mk {
  instance : option Owner;
  anchorName : option string;
  midPoint : PointAlike;
  relPosition : PointAlike;
  angle : Number;
  inDegree : bool;
  changeListeners : list Listener;
  x : Number;
  y : Number
}.

Definition position (sp : t) : Point.t := Point.mk (x sp) (y sp).

Section WithTrig.
Context `{Trig}.

(** The normalisation of the quadrant inside the integer branch. *)
Definition normalize_quadrant (quadrant : Number) : Number :=
  let quadrant := rem quadrant (num 4) in
  if ltb quadrant 0 then quadrant + (num 4) else quadrant.

(** The pair (sin, cos) that [recalculate] uses.  The quotient that
    decides between the table and the host functions is exact here; the
    host rounds it. *)
Definition sin_cos (inDeg : bool) (a : Number) : Number * Number :=
  let quadrant := if inDeg then a / (num 90) else (a * (num 180)) / Math_PI in
  if isInteger quadrant then
    let quadrant := normalize_quadrant quadrant in
    (at_index [0; 1; 0; -1] quadrant, at_index [1; 0; -1; 0] quadrant)
  else
    (Math_sin a, Math_cos a).

(** [recalculate(newMid, angle)]; an omitted or [null] argument is [None]. *)
Definition recalculate (newMid : option PointAlike) (newAngle : option Number)
    (sp : t) : t * list Notification :=
  let midPoint' := match newMid with Some m => m | None => midPoint sp end in
  let angle' := match newAngle with Some a => a | None => angle sp end in
  let '(sin, cos) := sin_cos (inDegree sp) angle' in
  let relPosX := coordX (relPosition sp) in
  let relPosY := coordY (relPosition sp) in
  let anchorPosX := coordX midPoint' in
  let anchorPosY := coordY midPoint' in
  let oldX := x sp in
  let oldY := y sp in
  let x' := cos * relPosX + sin * relPosY + anchorPosX in
  let y' := - sin * relPosX + cos * relPosY + anchorPosY in
  let sp' := mk (instance sp) (anchorName sp) midPoint' (relPosition sp)
                angle' (inDegree sp) (changeListeners sp) x' y' in
  (sp', map (fun l => Build_Notification l (Point.mk x' y') oldX oldY false)
            (changeListeners sp)).

(** [new SnapPoint(instance, anchorName, mid, relPosition, angle, inDegree)].
    [Point()] starts at the origin; without a mid point from either
    source, reading the coordinates of [undefined] throws. *)
Definition new (inst : option Owner) (name : option string)
    (mid0 : option PointAlike) (rel : PointAlike)
    (angle0 : option Number) (inDeg : option bool) : result t :=
  let a := match angle0 with Some a => a | None => 0 end in
  let d := match inDeg with Some b => b | None => false end in
  try m := match mid0 with
           | Some m => Ok (Some m)
           | None => match inst with
                     | Some o => Ok (mid o)
                     | None => Throw TypeError
                     end
           end in
  match m with
  | Some m => Ok (fst (recalculate (Some m) (Some a)
                         (mk inst name m rel a d [] 0 0)))
  | None => Throw TypeError
  end.
End WithTrig.

(** [removeInstance()]. *)
Definition removeInstance (sp : t) : t * list Notification :=
  (mk None None (midPoint sp) (relPosition sp) (angle sp) (inDegree sp)
      (changeListeners sp) (x sp) (y sp),
   map (fun l => Build_Notification l (position sp) (x sp) (y sp) true)
       (changeListeners sp)).

(** [addChangeListener(listener)]. *)
Definition addChangeListener (l : Listener) (sp : t) : t :=
  mk (instance sp) (anchorName sp) (midPoint sp) (relPosition sp) (angle sp)
     (inDegree sp) (changeListeners sp ++ [l]) (x sp) (y sp).

(** [indexOf] followed by [splice(index, 1)]. *)
Fixpoint remove_first (l : Listener) (ls : list Listener) : list Listener :=
  match ls with
  | [] => []
  | l' :: ls' => if Nat.eqb l l' then ls' else l' :: remove_first l ls'
  end.

(** [removeChangeListener(listener)]. *)
Definition removeChangeListener (l : Listener) (sp : t) : t :=
  mk (instance sp) (anchorName sp) (midPoint sp) (relPosition sp) (angle sp)
     (inDegree sp) (remove_first l (changeListeners sp)) (x sp) (y sp).

(** The inherited [toTikzString()] of a point: its coordinates in the
    document's unit, formatted by the point extension of the drawing
    library. *)
Class PointFormat : Type := { Point_toTikzString : Point.t -> string }.

(** Truthiness of a string that may be [null]. *)
Definition nonEmptyString (s : option string) : bool :=
  match s with
  | Some s => negb (bool_decide (s = ""))
  | None => false
  end.

(** [toTikzString()]. *)
Definition toTikzString `{PointFormat} (sp : t) : string :=
  let nodeName := match instance sp with
                  | Some o => nodeName o
                  | None => None
                  end in
  match nodeName, anchorName sp with
  | Some n, Some a =>
      if nonEmptyString (Some n) && nonEmptyString (Some a)
      then (n ++ "." ++ a)%string
      else Point_toTikzString (position sp)
  | _, _ => Point_toTikzString (position sp)
  end.

End SnapPoint.

(** ** LineDrawer: the orthogonal line router *)

Module LineDrawer.

(** [#lastLineDirection]. *)
Record Direction : Type := {
  up : bool;
  right : bool;
  down : bool;
  left : bool
}.

Definition noDirection : Direction :=
  {| up := false; right := false; down := false; left := false |}.

(** Modelled from the spec: the [Line] class is not among the sources.  A
    wire is an ordered sequence of orthogonal segments; the record keeps the
    start point, every corner with the bend direction it was pushed with,
    and the provisional segment to the cursor. *)
Record Line : Type := {
  startPoint : Point.t;
  corners : list (bool * Point.t);
  mousePoint : option (bool * Point.t)
}.

Definition newLineAt (p : Point.t) : Line :=
  {| startPoint := p; corners := []; mousePoint := None |}.
Definition pushPoint (horizontalFirst : bool) (p : Point.t) (l : Line) : Line :=
  {| startPoint := startPoint l;
     corners := corners l ++ [(horizontalFirst, p)];
     mousePoint := mousePoint l |}.
Definition updateMousePoint (horizontalFirst : bool) (p : Point.t) (l : Line) : Line :=
  {| startPoint := startPoint l;
     corners := corners l;
     mousePoint := Some (horizontalFirst, p) |}.
Definition removeMousePoint (l : Line) : Line :=
  {| startPoint := startPoint l; corners := corners l; mousePoint := None |}.

(** The private fields of the drawer, the two collaborators it switches
    (snap cursor, floating action button) and the lines it has handed to
    the main controller. *)
Record t : Type := mk {
  newLine : option Line;
  lastPoint : option Point.t;
  horizontalFirst : bool;
  holdDirectionSet : bool;
  lastLineDirection : Direction;
  wasAboveXAxis : option bool;
  wasRightOfYAxis : option bool;
  cursorVisible : bool;
  cursorPosition : option Point.t;
  fabVisible : bool;
  addedLines : list Line
}.

(** The field initialisers of the class. *)
Definition init : t :=
  mk None None false false noDirection None None false None false [].

(** [a !== b] for a field that may still be [undefined]. *)
Definition differs (was : option bool) (cur : bool) : bool :=
  match was with
  | Some b => negb (Bool.eqb b cur)
  | None => true
  end.

(** [#resetVars()]. *)
Definition resetVars (st : t) : t :=
  mk None None (horizontalFirst st) false noDirection
     (wasAboveXAxis st) (wasRightOfYAxis st)
     (cursorVisible st) (cursorPosition st) (fabVisible st) (addedLines st).

(** [#clickListener(event)]; [snappedPoint] is the event's point after
    snapping. *)
Definition clickListener (snappedPoint : Point.t) (st : t) : result t :=
  match lastPoint st with
  | None =>
      Ok (mk (Some (newLineAt snappedPoint)) (Some snappedPoint)
             (horizontalFirst st) (holdDirectionSet st) (lastLineDirection st)
             (wasAboveXAxis st) (wasRightOfYAxis st)
             false (cursorPosition st) (fabVisible st) (addedLines st))
  | Some last =>
      if eqb (Point.x last) (Point.x snappedPoint)
         && eqb (Point.y last) (Point.y snappedPoint)
      then Ok st
      else
        match newLine st with
        | None => Throw TypeError
        | Some line =>
            let line' := pushPoint (horizontalFirst st) snappedPoint line in
            let secondLastPoint := last in
            let lastPoint' := snappedPoint in
            let direction :=
              if (horizontalFirst st
                  || eqb (Point.x lastPoint') (Point.x secondLastPoint))
                 && negb (eqb (Point.y lastPoint') (Point.y secondLastPoint))
              then
                {| up := ltb (Point.y lastPoint') (Point.y secondLastPoint);
                   down := gtb (Point.y lastPoint') (Point.y secondLastPoint);
                   left := false;
                   right := false |}
              else
                {| left := ltb (Point.x lastPoint') (Point.x secondLastPoint);
                   right := gtb (Point.x lastPoint') (Point.x secondLastPoint);
                   up := false;
                   down := false |} in
            Ok (mk (Some line') (Some lastPoint')
                   (horizontalFirst st) (holdDirectionSet st) direction
                   (wasAboveXAxis st) (wasRightOfYAxis st)
                   (cursorVisible st) (cursorPosition st) true (addedLines st))
        end
  end.

(** [#moveListener(event)]. *)
Definition moveListener (snappedPoint : Point.t) (st : t) : result t :=
  match newLine st with
  | None =>
      Ok (mk (newLine st) (lastPoint st) (horizontalFirst st)
             (holdDirectionSet st) (lastLineDirection st)
             (wasAboveXAxis st) (wasRightOfYAxis st)
             (cursorVisible st) (Some snappedPoint) (fabVisible st)
             (addedLines st))
  | Some line =>
      match lastPoint st with
      | None => Throw TypeError
      | Some last =>
          let isAboveXAxis := ltb (Point.y snappedPoint) (Point.y last) in
          let isRightOfYAxis := gtb (Point.x snappedPoint) (Point.x last) in
          let horizontalFirst1 :=
            if holdDirectionSet st then
              if differs (wasAboveXAxis st) isAboveXAxis then true
              else if differs (wasRightOfYAxis st) isRightOfYAxis then false
              else horizontalFirst st
            else
              let deltaX := Point.x snappedPoint - Point.x last in
              let deltaY := Point.y snappedPoint - Point.y last in
              gtb deltaX deltaY in
          let d := lastLineDirection st in
          let horizontalFirst2 :=
            if (left d && isRightOfYAxis) || (right d && negb isRightOfYAxis)
            then false
            else if (down d && isAboveXAxis) || (up d && negb isAboveXAxis)
            then true
            else horizontalFirst1 in
          Ok (mk (Some (updateMousePoint horizontalFirst2 snappedPoint line))
                 (lastPoint st) horizontalFirst2 true d
                 (Some isAboveXAxis) (Some isRightOfYAxis)
                 (cursorVisible st) (cursorPosition st) (fabVisible st)
                 (addedLines st))
      end
  end.

(** [#onCancel()]: the line in creation is removed from the canvas. *)
Definition onCancel (st : t) : t :=
  let st' := resetVars st in
  mk (newLine st') (lastPoint st') (horizontalFirst st')
     (holdDirectionSet st') (lastLineDirection st')
     (wasAboveXAxis st') (wasRightOfYAxis st')
     true (cursorPosition st') false (addedLines st').

(** [#lineEnd()], which [#onOK()] calls. *)
Definition lineEnd (st : t) : result t :=
  match newLine st with
  | None => Throw TypeError
  | Some line =>
      let st' := resetVars st in
      Ok (mk (newLine st') (lastPoint st') (horizontalFirst st')
             (holdDirectionSet st') (lastLineDirection st')
             (wasAboveXAxis st') (wasRightOfYAxis st')
             true (cursorPosition st') false
             (addedLines st ++ [removeMousePoint line]))
  end.

(** [activate()]: the variables are reset and the snap cursor is shown. *)
Definition activate (st : t) : t :=
  let st' := resetVars st in
  mk (newLine st') (lastPoint st') (horizontalFirst st')
     (holdDirectionSet st') (lastLineDirection st')
     (wasAboveXAxis st') (wasRightOfYAxis st')
     true (cursorPosition st') (fabVisible st') (addedLines st').

(** [deactivate()]: the line in creation is cancelled and the snap cursor
    hidden. *)
Definition deactivate (st : t) : t :=
  let st' := onCancel st in
  mk (newLine st') (lastPoint st') (horizontalFirst st')
     (holdDirectionSet st') (lastLineDirection st')
     (wasAboveXAxis st') (wasRightOfYAxis st')
     false (cursorPosition st') (fabVisible st') (addedLines st').

End LineDrawer.

(** ** SelectionController: marquee selection and group transforms *)

Module SelectionController.

(** [SelectionController.SelectionMode]. *)
Inductive SelectionMode : Type := RESET | ADD | SUB.

(** Component instances and lines are objects that several arrays refer
    to; a reference is an [oid] and the objects live in a heap. *)
Definition oid : Type := positive.

(** What the controller asks of the objects it handles.  The classes of
    lines and component instances and the point extension [rotate] are not
    among the sources; the controller is modelled against their
    interface. *)
Class CanvasObject (O : Type) : Type := {
  isInsideSelectionRectangle : O -> Box.t -> bool;
  showBoundingBox : O -> O;
  hideBoundingBox : O -> O;
  bbox : O -> Box.t;
  rotate : Number -> O -> O;
  flip : bool -> O -> O;
  moveRel : Point.t -> O -> O;
  moveTo : Point.t -> O -> O;
  getAnchorPoint : O -> Point.t;
  isNodeComponentInstance : O -> bool;
  recalculateSnappingPoints : O -> O;
  (** [point.rotate(angleDeg, center, false)] *)
  rotatePoint : Number -> Point.t -> Point.t -> Point.t
}.

Record t (O : Type) : Type := mk {
  selectionMode : SelectionMode;
  instances : list oid;
  lines : list oid;
  selectionStartPosition : Point.t;
  selectionRectangle : Box.t;
  currentlyDragging : bool;
  currentlySelectedComponents : list oid;
  currentlySelectedLines : list oid;
  selectionEnabled : bool;
  heap : oid -> O
}.
Arguments mk {O}.
Arguments selectionMode {O}.
Arguments instances {O}.
Arguments lines {O}.
Arguments selectionStartPosition {O}.
Arguments selectionRectangle {O}.
Arguments currentlyDragging {O}.
Arguments currentlySelectedComponents {O}.
Arguments currentlySelectedLines {O}.
Arguments selectionEnabled {O}.
Arguments heap {O}.

Section WithObjects.
Context {O : Type} `{CanvasObject O}.

Definition withHeap (h : oid -> O) (st : t O) : t O :=
  mk (selectionMode st) (instances st) (lines st)
     (selectionStartPosition st) (selectionRectangle st)
     (currentlyDragging st) (currentlySelectedComponents st)
     (currentlySelectedLines st) (selectionEnabled st) h.

(** [array.includes(object)]. *)
Definition includes (ids : list oid) (i : oid) : bool :=
  bool_decide (i ∈ ids).

(** A [for (const object of ids)] loop whose body acts on the object. *)
Definition forEach (body : O -> O) (ids : list oid) (h : oid -> O) : oid -> O :=
  fold_left (fun h i => alter body i h) ids h.

(** The highlight condition of one object in [#showSelection]. *)
Definition previewCond (mode : SelectionMode) (selectionBox : Box.t)
    (selected : bool) (o : O) : bool :=
  match mode with
  | RESET => isInsideSelectionRectangle o selectionBox
  | ADD => isInsideSelectionRectangle o selectionBox || selected
  | SUB => negb (isInsideSelectionRectangle o selectionBox) && selected
  end.

Definition previewLoop (mode : SelectionMode) (selectionBox : Box.t)
    (selectedIds ids : list oid) (h : oid -> O) : oid -> O :=
  fold_left
    (fun h i =>
       alter (fun o => if previewCond mode selectionBox (includes selectedIds i) o
                       then showBoundingBox o else hideBoundingBox o) i h)
    ids h.

(** [#showSelection()]. *)
Definition privShowSelection (st : t O) : t O :=
  let selectionBox := selectionRectangle st in
  let h1 := previewLoop (selectionMode st) selectionBox
              (currentlySelectedComponents st) (instances st) (heap st) in
  let h2 := previewLoop (selectionMode st) selectionBox
              (currentlySelectedLines st) (lines st) h1 in
  withHeap h2 st.

(** [indexOf] and [splice(idx, 1)]. *)
Fixpoint removeFirst (i : oid) (ids : list oid) : list oid :=
  match ids with
  | [] => []
  | j :: ids' => if bool_decide (i = j) then ids' else j :: removeFirst i ids'
  end.

Definition commitLoop (mode : SelectionMode) (selectionBox : Box.t)
    (h : oid -> O) (ids selected : list oid) : list oid :=
  fold_left
    (fun selected i =>
       let inside := isInsideSelectionRectangle (h i) selectionBox in
       match mode with
       | RESET => if inside
                  then (if includes selected i then selected else selected ++ [i])
                  else removeFirst i selected
       | ADD => if inside
                then (if includes selected i then selected else selected ++ [i])
                else selected
       | SUB => if inside then removeFirst i selected else selected
       end)
    ids selected.

(** [#updateSelection()]. *)
Definition privUpdateSelection (st : t O) : t O :=
  let selectionBox := selectionRectangle st in
  mk (selectionMode st) (instances st) (lines st)
     (selectionStartPosition st) (selectionRectangle st)
     (currentlyDragging st)
     (commitLoop (selectionMode st) selectionBox (heap st) (instances st)
        (currentlySelectedComponents st))
     (commitLoop (selectionMode st) selectionBox (heap st) (lines st)
        (currentlySelectedLines st))
     (selectionEnabled st) (heap st).

(** The [mousemove] handler of the canvas; [pt] is the pointer position
    in canvas coordinates. *)
Definition mousemove (pt : Point.t) (st : t O) : t O :=
  if currentlyDragging st then
    let dx := Point.x pt - Point.x (selectionStartPosition st) in
    let dy := Point.y pt - Point.y (selectionStartPosition st) in
    let moveX := Point.x (selectionStartPosition st) in
    let moveY := Point.y (selectionStartPosition st) in
    let '(moveX, dx) := if ltb dx 0 then (moveX + dx, - dx) else (moveX, dx) in
    let '(moveY, dy) := if ltb dy 0 then (moveY + dy, - dy) else (moveY, dy) in
    privShowSelection
      (mk (selectionMode st) (instances st) (lines st)
          (selectionStartPosition st) (Box.mk moveX moveY dx dy)
          (currentlyDragging st) (currentlySelectedComponents st)
          (currentlySelectedLines st) (selectionEnabled st) (heap st))
  else st.

(** [hasSelection()]. *)
Definition hasSelection (st : t O) : bool :=
  bool_decide (0 < length (currentlySelectedComponents st))%nat
  || bool_decide (0 < length (currentlySelectedLines st))%nat.

Definition mergeAll (h : oid -> O) (ids : list oid) (b : option Box.t) : option Box.t :=
  fold_left
    (fun b i => match b with
                | None => Some (bbox (h i))
                | Some b => Some (Box.merge b (bbox (h i)))
                end)
    ids b.

(** [getOverallBoundingBox()]; [None] is [null]. *)
Definition getOverallBoundingBox (st : t O) : option Box.t :=
  mergeAll (heap st) (currentlySelectedComponents st)
    (mergeAll (heap st) (currentlySelectedLines st) None).

(** [new SVG.Point(overallBBox.cx, overallBBox.cy)]; reading [cx] of
    [null] throws. *)
Definition centerOf (b : option Box.t) : result Point.t :=
  match b with
  | Some b => Ok (Point.mk (Box.cx b) (Box.cy b))
  | None => Throw TypeError
  end.

(** [rotateSelection(angleDeg)]. *)
Definition rotateSelection (angleDeg : Number) (st : t O) : result (t O) :=
  if negb (hasSelection st) then Ok st
  else
    try overallCenter := centerOf (getOverallBoundingBox st) in
    let h1 :=
      forEach (fun line =>
                 let center := Point.mk (Box.cx (bbox line)) (Box.cy (bbox line)) in
                 let line := rotate angleDeg line in
                 let move := Point.minus (rotatePoint angleDeg overallCenter center)
                                         center in
                 moveRel move line)
              (currentlySelectedLines st) (heap st) in
    let h2 :=
      forEach (fun component =>
                 let center := getAnchorPoint component in
                 let component := rotate angleDeg component in
                 let move := rotatePoint angleDeg overallCenter center in
                 let component := moveTo move component in
                 if isNodeComponentInstance component
                 then recalculateSnappingPoints component else component)
              (currentlySelectedComponents st) h1 in
    Ok (withHeap h2 st).

(** [flipSelection(horizontal)]. *)
Definition flipSelection (horizontal : bool) (st : t O) : result (t O) :=
  if negb (hasSelection st) then Ok st
  else
    try overallCenter := centerOf (getOverallBoundingBox st) in
    let flipX := if horizontal then 0 else num (-2) in
    let flipY := if horizontal then num (-2) else 0 in
    let h1 :=
      forEach (fun line =>
                 let center := Point.mk (Box.cx (bbox line)) (Box.cy (bbox line)) in
                 let diffToCenter := Point.minus center overallCenter in
                 let line := flip horizontal line in
                 moveRel (Point.mk (Point.x diffToCenter * flipX)
                                   (Point.y diffToCenter * flipY)) line)
              (currentlySelectedLines st) (heap st) in
    let h2 :=
      forEach (fun component =>
                 let center := getAnchorPoint component in
                 let diffToCenter := Point.minus center overallCenter in
                 let component := flip horizontal component in
                 let component :=
                   moveRel (Point.mk (Point.x diffToCenter * flipX)
                                     (Point.y diffToCenter * flipY)) component in
                 if isNodeComponentInstance component
                 then recalculateSnappingPoints component else component)
              (currentlySelectedComponents st) h1 in
    Ok (withHeap h2 st).

(** [moveSelectionRel(delta)]. *)
Definition moveSelectionRel (delta : Point.t) (st : t O) : t O :=
  let h1 := forEach (moveRel delta) (currentlySelectedComponents st) (heap st) in
  let h2 := forEach (moveRel delta) (currentlySelectedLines st) h1 in
  withHeap h2 st.

(** [moveSelectionTo(position)]. *)
Definition moveSelectionTo (position : Point.t) (st : t O) : result (t O) :=
  try overallCenter := centerOf (getOverallBoundingBox st) in
  Ok (moveSelectionRel (Point.minus position overallCenter) st).

(** What the mouse handlers read from the event: the button, the modifier
    keys (shift, and ctrl or the command key on a Mac, from the event or its
    detail) and the pointer position in canvas coordinates. *)
Record MouseEvent : Type := {
  button : Z;
  shift : bool;
  ctrl : bool;
  pointer : Point.t
}.

Definition withRectangle (r : Box.t) (dragging : bool) (st : t O) : t O :=
  mk (selectionMode st) (instances st) (lines st)
     (selectionStartPosition st) r dragging
     (currentlySelectedComponents st) (currentlySelectedLines st)
     (selectionEnabled st) (heap st).

(** [attr("width", 0)] and [attr("height", 0)] on the rectangle. *)
Definition collapsed (r : Box.t) : Box.t := Box.mk (Box.x r) (Box.y r) 0 0.

(** The [mousedown] handler of the canvas. *)
Definition mousedown (evt : MouseEvent) (st : t O) : t O :=
  let st :=
    if bool_decide (button evt = 2%Z) && currentlyDragging st
    then withRectangle (collapsed (selectionRectangle st)) false st
    else st in
  if bool_decide (button evt = 0%Z) && selectionEnabled st then
    let mode :=
      if shift evt then (if ctrl evt then RESET else ADD)
      else (if ctrl evt then SUB else RESET) in
    mk mode (instances st) (lines st) (pointer evt)
       (Box.mk (Point.x (pointer evt)) (Point.y (pointer evt))
               (Box.width (selectionRectangle st)) (Box.height (selectionRectangle st)))
       true (currentlySelectedComponents st) (currentlySelectedLines st)
       (selectionEnabled st) (heap st)
  else st.

(** [activateSelection()]. *)
Definition activateSelection (st : t O) : t O :=
  mk (selectionMode st) (instances st) (lines st)
     (selectionStartPosition st) (selectionRectangle st)
     (currentlyDragging st) (currentlySelectedComponents st)
     (currentlySelectedLines st) true (heap st).

(** [deactivateSelection()]. *)
Definition deactivateSelection (st : t O) : t O :=
  privUpdateSelection
    (privShowSelection
       (mk RESET (instances st) (lines st)
           (selectionStartPosition st) (collapsed (selectionRectangle st))
           (currentlyDragging st) [] [] false (heap st))).

(** The [mouseup] handler of the canvas. *)
Definition mouseup (evt : MouseEvent) (st : t O) : t O :=
  if bool_decide (button evt = 0%Z) then
    let st :=
      if currentlyDragging st then
        let st := privUpdateSelection st in
        withRectangle (collapsed (selectionRectangle st)) false st
      else st in
    if eqb (Point.x (pointer evt)) (Point.x (selectionStartPosition st))
       && eqb (Point.y (pointer evt)) (Point.y (selectionStartPosition st))
    then activateSelection (deactivateSelection st)
    else st
  else st.

(** [showSelection()] and [hideSelection()]. *)
Definition showSelection (st : t O) : t O :=
  let h1 := forEach showBoundingBox (currentlySelectedComponents st) (heap st) in
  let h2 := forEach showBoundingBox (currentlySelectedLines st) h1 in
  withHeap h2 st.

Definition hideSelection (st : t O) : t O :=
  let h1 := forEach hideBoundingBox (currentlySelectedComponents st) (heap st) in
  let h2 := forEach hideBoundingBox (currentlySelectedLines st) h1 in
  withHeap h2 st.

(** [[...new Set(ids)]]: every object once, in the order of its first
    occurrence. *)
Definition uniqueInOrder (ids : list oid) : list oid :=
  fold_left (fun seen i => if includes seen i then seen else seen ++ [i]) ids [].

(** The new selection array of [selectComponents] and [selectLines].  In
    mode SUB the source splices the selection while it iterates the given
    array; the fold follows it for a given array that is another object
    than the selection array. *)
Definition combine (mode : SelectionMode) (selected given : list oid) : list oid :=
  match mode with
  | RESET => given
  | ADD => uniqueInOrder (selected ++ given)
  | SUB => fold_left (fun selected i => removeFirst i selected) given selected
  end.

(** [selectComponents(components, mode)]. *)
Definition selectComponents (components : list oid) (mode : SelectionMode)
    (st : t O) : t O :=
  let st := hideSelection st in
  showSelection
    (mk (selectionMode st) (instances st) (lines st)
        (selectionStartPosition st) (selectionRectangle st)
        (currentlyDragging st)
        (combine mode (currentlySelectedComponents st) components)
        (currentlySelectedLines st) (selectionEnabled st) (heap st)).

(** [selectLines(lines, mode)]. *)
Definition selectLines (given : list oid) (mode : SelectionMode)
    (st : t O) : t O :=
  let st := hideSelection st in
  showSelection
    (mk (selectionMode st) (instances st) (lines st)
        (selectionStartPosition st) (selectionRectangle st)
        (currentlyDragging st) (currentlySelectedComponents st)
        (combine mode (currentlySelectedLines st) given)
        (selectionEnabled st) (heap st)).

(** [selectAll()]. *)
Definition selectAll (st : t O) : t O :=
  showSelection
    (mk (selectionMode st) (instances st) (lines st)
        (selectionStartPosition st) (selectionRectangle st)
        (currentlyDragging st) (instances st) (lines st)
        (selectionEnabled st) (heap st)).

(** [isComponentSelected(component)] and [isLineSelected(line)]. *)
Definition isComponentSelected (component : oid) (st : t O) : bool :=
  includes (currentlySelectedComponents st) component.
Definition isLineSelected (line : oid) (st : t O) : bool :=
  includes (currentlySelectedLines st) line.

End WithObjects.

End SelectionController.

(** ** ComponentSymbol: symbol metadata and anchors *)

Module ComponentSymbol.

Definition METADATA_NAMESPACE_URI : string :=
  "urn:uuid:c93d8327-175d-40b7-bdf7-03205e4f8fc3".
Definition SVG_NAMESPACE_URI : string := "http://www.w3.org/2000/svg".

(** A DOM element: name, namespace, attributes and child elements. *)
#[local] Unset Elimination Schemes.
Inductive Element : Type :=
| mkElement (localName namespaceURI : string)
            (attributes : gmap string string) (children : list Element).
#[local] Set Elimination Schemes.

Definition localName (e : Element) : string :=
  match e with mkElement n _ _ _ => n end.
Definition namespaceURI (e : Element) : string :=
  match e with mkElement _ ns _ _ => ns end.
Definition attributes (e : Element) : gmap string string :=
  match e with mkElement _ _ a _ => a end.
Definition children (e : Element) : list Element :=
  match e with mkElement _ _ _ c => c end.

(** [element.getAttribute(name)]; [None] is [null]. *)
Definition getAttribute (name : string) (e : Element) : option string :=
  attributes e !! name.

(** [e instanceof SVGMetadataElement]. *)
Definition isSVGMetadataElement (e : Element) : bool :=
  bool_decide (localName e = "metadata")
  && bool_decide (namespaceURI e = SVG_NAMESPACE_URI).

(** Modelled from the spec: the helper module [xmlHelper] is not among the
    sources.  [getNamedTags] selects the child elements with the given
    local name in the given namespace, [getNamedTag] the first of them
    ([null] if there is none). *)
Definition getNamedTags (e : Element) (tagName ns : string) : list Element :=
  filter (fun c => bool_decide (localName c = tagName)
                   && bool_decide (namespaceURI c = ns)) (children e).
Definition getNamedTag (e : Element) (tagName ns : string) : option Element :=
  head (getNamedTags e tagName ns).

(** Truthiness of a string that may be [null]. *)
Definition truthy (s : option string) : bool :=
  match s with
  | Some s => negb (bool_decide (s = ""))
  | None => false
  end.

(** [a || b] on such strings. *)
Definition orElse (a b : option string) : option string :=
  if truthy a then a else b.

(** A coordinate of an anchor: a number, or the attribute text. *)
Inductive Coordinate : Type :=
| VNumber (n : Number)
| VString (s : string).

(** Conversion of a length given as text ("0.5cm") to pixels, done by the
    drawing library. *)
Class Units : Type := { lengthToPx : string -> Number }.

(** Modelled from the spec: [SVG.Number.ensureInPx] is not among the
    sources.  A number is a length in pixels already; text is converted by
    the drawing library. *)
Definition ensureInPx `{Units} (v : Coordinate) : Number :=
  match v with
  | VNumber n => n
  | VString s => lengthToPx s
  end.

(** *** The number pattern and [Number.parseFloat] *)

Definition isDigit (c : ascii) : bool :=
  (48 <=? nat_of_ascii c)%nat && (nat_of_ascii c <=? 57)%nat.

Fixpoint allDigits (s : string) : bool :=
  match s with
  | EmptyString => true
  | String c s' => isDigit c && allDigits s'
  end.

(** The text before and after the first full stop. *)
Fixpoint splitAtDot (s : string) : option (string * string) :=
  match s with
  | EmptyString => None
  | String c s' =>
      if bool_decide (c = "."%char) then Some (EmptyString, s')
      else match splitAtDot s' with
           | Some (pre, post) => Some (String c pre, post)
           | None => None
           end
  end.

Definition nonEmpty (s : string) : bool := negb (bool_decide (s = "")).

(** [/^(\d*\.)?\d+$/.test(s)]. *)
Definition numberRegEx_test (s : string) : bool :=
  match splitAtDot s with
  | None => nonEmpty s && allDigits s
  | Some (pre, post) => allDigits pre && nonEmpty post && allDigits post
  end.

Fixpoint digitsValue (s : string) (acc : Z) : Z :=
  match s with
  | EmptyString => acc
  | String c s' => digitsValue s' (10 * acc + (Z.of_nat (nat_of_ascii c) - 48))
  end.

(** [Number.parseFloat(s)] for text that matches the pattern, as the
    decimal the text spells; the host returns the double nearest to it. *)
Definition parseFloat (s : string) : Number :=
  match splitAtDot s with
  | None => num (digitsValue s 0)
  | Some (pre, post) =>
      num (digitsValue pre 0)
      + num (digitsValue post 0) / num (10 ^ Z.of_nat (String.length post))
  end.

(** *** Anchors *)

Record TikZAnchor : Type := {
  name : option string;
  x : Coordinate;
  y : Coordinate;
  point : Point.t;
  isDefault : bool
}.

Definition parseCoordinate (attr : option string) : Coordinate :=
  match attr with
  | None => VNumber 0
  | Some s => if numberRegEx_test s then VNumber (parseFloat s) else VString s
  end.

(** [#parseAnchor(anchorElement)], for a symbol whose [mid] is [mid].  The
    assignment to [this._defaultAnchor] is made by the caller from
    [isDefault] (see [lastDefault]). *)
Definition parseAnchor `{Units} (mid : Point.t) (anchorElement : Element) : TikZAnchor :=
  let name := orElse (getAttribute "anchorName" anchorElement)
                     (orElse (getAttribute "anchorname" anchorElement) None) in
  let x := parseCoordinate (getAttribute "x" anchorElement) in
  let y := parseCoordinate (getAttribute "y" anchorElement) in
  let isDefault :=
    match orElse (getAttribute "isDefault" anchorElement)
                 (orElse (getAttribute "isdefault" anchorElement) None) with
    | Some s => bool_decide (s = "true")
    | None => false
    end in
  {| name := name; x := x; y := y;
     point := Point.mk (Point.x mid + ensureInPx x) (Point.y mid - ensureInPx y);
     isDefault := isDefault |}.

(** [this._defaultAnchor] after the anchors in [anchors] were parsed in
    order. *)
Definition lastDefault (anchors : list TikZAnchor) (current : option TikZAnchor)
    : option TikZAnchor :=
  fold_left (fun d a => if isDefault a then Some a else d) anchors current.

(** *** Base information and construction *)

Record SymbolBaseInformation : Type := {
  svgMetadataElement : option Element;
  componentInformation : option Element;
  isNode : bool;
  isPath : bool;
  displayName : option string;
  tikzName : option string;
  shapeName : option string;
  groupName : option string;
  mid : Point.t;
  (** the text of the [viewBox] attribute the box is built from *)
  viewBox : option string
}.

(** [ComponentSymbol.getBaseInformation(symbolElement)]. *)
Definition getBaseInformation `{Units} (symbolElement : Element) : SymbolBaseInformation :=
  let svgMetadataElement := List.find isSVGMetadataElement (children symbolElement) in
  let componentInformation :=
    match svgMetadataElement with
    | Some md => getNamedTag md "componentinformation" METADATA_NAMESPACE_URI
    | None => None
    end in
  let attr (n : string) : option string :=
    match componentInformation with
    | Some ci => getAttribute n ci
    | None => None
    end in
  let tikzName := attr "tikzName" in
  let displayName := match attr "displayName" with
                     | Some s => Some s
                     | None => tikzName
                     end in
  let ref (n : string) : Coordinate :=
    match attr n with
    | Some s => if truthy (Some s) then VString s else VNumber 0
    | None => VNumber 0
    end in
  {| svgMetadataElement := svgMetadataElement;
     componentInformation := componentInformation;
     isNode := bool_decide (attr "type" = Some "node");
     isPath := bool_decide (attr "type" = Some "path");
     displayName := displayName;
     tikzName := tikzName;
     shapeName := attr "shapeName";
     groupName := attr "groupName";
     mid := Point.mk (ensureInPx (ref "refX")) (ensureInPx (ref "refY"));
     viewBox := match attr "viewBox" with
                | Some v => Some v
                | None => getAttribute "viewBox" symbolElement
                end |}.

Record t : Type := {
  symbolMetadataElement : Element;
  symbolDisplayName : string;
  symbolTikzName : string;
  symbolGroupName : option string;
  symbolMid : Point.t;
  symbolViewBox : option string;
  _pins : list TikZAnchor;
  _additionalAnchors : list TikZAnchor;
  _textAnchor : option TikZAnchor;
  _defaultAnchor : option TikZAnchor
}.

Definition missingMetadata : JsError :=
  Error "Missing metadata for creating the component".

(** The elements [inner] below the element [outer] of the component
    information. *)
Definition namedChildren (ci : option Element) (outer inner : string) : list Element :=
  match ci with
  | Some ci =>
      match getNamedTag ci outer METADATA_NAMESPACE_URI with
      | Some e => getNamedTags e inner METADATA_NAMESPACE_URI
      | None => []
      end
  | None => []
  end.

(** [new ComponentSymbol(symbolElement, baseInformation)]. *)
Definition new `{Units} (symbolElement : Element)
    (baseInformation : option SymbolBaseInformation) : result t :=
  let baseInformation :=
    match baseInformation with
    | Some b => b
    | None => getBaseInformation symbolElement
    end in
  match svgMetadataElement baseInformation,
        displayName baseInformation, tikzName baseInformation with
  | Some md, Some dn, Some tn =>
      if negb (truthy (Some dn)) || negb (truthy (Some tn))
      then Throw missingMetadata
      else
        let ci := componentInformation baseInformation in
        let mid := mid baseInformation in
        let pins := map (parseAnchor mid) (namedChildren ci "pins" "pin") in
        let anchors :=
          map (parseAnchor mid) (namedChildren ci "additionalAnchors" "anchor") in
        let text :=
          match ci with
          | Some ci =>
              match getNamedTag ci "textPosition" METADATA_NAMESPACE_URI with
              | Some e => Some (parseAnchor mid e)
              | None => None
              end
          | None => None
          end in
        Ok {| symbolMetadataElement := md;
              symbolDisplayName := dn;
              symbolTikzName := tn;
              symbolGroupName := groupName baseInformation;
              symbolMid := mid;
              symbolViewBox := viewBox baseInformation;
              _pins := pins;
              _additionalAnchors := anchors;
              _textAnchor := text;
              _defaultAnchor :=
                lastDefault (pins ++ anchors ++ match text with
                                                | Some a => [a]
                                                | None => []
                                                end) None |}
  | _, _, _ => Throw missingMetadata
  end.

(** [snappingAnchors] and [snappingPoints]. *)
Definition snappingAnchors (s : t) : list TikZAnchor := _pins s ++ _additionalAnchors s.
Definition snappingPoints (s : t) : list Point.t := map point (snappingAnchors s).

End ComponentSymbol.

(** ** PathComponentSymbol: symbols of path-style components *)

Module PathComponentSymbol.

Record t : Type := {
  symbol : ComponentSymbol.t;
  startPin : option ComponentSymbol.TikZAnchor;
  endPin : option ComponentSymbol.TikZAnchor
}.

(** [pin.name === n]. *)
Definition named (n : string) (pin : ComponentSymbol.TikZAnchor) : bool :=
  bool_decide (ComponentSymbol.name pin = Some n).

(** The callback of [this._pins.filter(...)]: it keeps the pins that are
    named neither START nor END, and stores the others in [startPin] and
    [endPin] as it meets them. *)
Definition sortPin (acc : list ComponentSymbol.TikZAnchor
                          * option ComponentSymbol.TikZAnchor
                          * option ComponentSymbol.TikZAnchor)
    (pin : ComponentSymbol.TikZAnchor) :=
  let '(kept, startPin, endPin) := acc in
  if named "START" pin then (kept, Some pin, endPin)
  else if named "END" pin then (kept, startPin, Some pin)
  else (kept ++ [pin], startPin, endPin).

Definition withPins (pins : list ComponentSymbol.TikZAnchor)
    (s : ComponentSymbol.t) : ComponentSymbol.t :=
  {| ComponentSymbol.symbolMetadataElement := ComponentSymbol.symbolMetadataElement s;
     ComponentSymbol.symbolDisplayName := ComponentSymbol.symbolDisplayName s;
     ComponentSymbol.symbolTikzName := ComponentSymbol.symbolTikzName s;
     ComponentSymbol.symbolGroupName := ComponentSymbol.symbolGroupName s;
     ComponentSymbol.symbolMid := ComponentSymbol.symbolMid s;
     ComponentSymbol.symbolViewBox := ComponentSymbol.symbolViewBox s;
     ComponentSymbol._pins := pins;
     ComponentSymbol._additionalAnchors := ComponentSymbol._additionalAnchors s;
     ComponentSymbol._textAnchor := ComponentSymbol._textAnchor s;
     ComponentSymbol._defaultAnchor := ComponentSymbol._defaultAnchor s |}.

(** [new PathComponentSymbol(symbolElement, baseInformation)]. *)
Definition new `{ComponentSymbol.Units} (symbolElement : ComponentSymbol.Element)
    (baseInformation : option ComponentSymbol.SymbolBaseInformation) : result t :=
  try s := ComponentSymbol.new symbolElement baseInformation in
  let '(kept, startPin, endPin) :=
    fold_left sortPin (ComponentSymbol._pins s) ([], None, None) in
  Ok {| symbol := withPins kept s; startPin := startPin; endPin := endPin |}.

End PathComponentSymbol.

(** * Terms of the design document

    Definitions that the statements below use: the rotation the design
    document speaks of, the properties it claims, and concrete documents to
    run the code on. *)

(** ** Rotation by quarter turns, as the design document words it

    [rotate(offset, angle)] for an angle of [k] quarter turns, built from the
    single quarter turn and its inverse.  The orientation is the one of the
    rotation matrix in [recalculate]: a quarter turn sends (x, y) to
    (y, -x). *)

Definition rot90 (p : Point.t) : Point.t :=
  Point.mk (Point.y p) (- Point.x p).

Definition rot90_back (p : Point.t) : Point.t :=
  Point.mk (- Point.y p) (Point.x p).

Definition rotate_quarter_turns (k : Z) (p : Point.t) : Point.t :=
  match k with
  | Z0 => p
  | Zpos n => Pos.iter rot90 p n
  | Zneg n => Pos.iter rot90_back p n
  end.

(** The rotation of the formula in [recalculate] for given sine and cosine. *)
Definition rotate_with (sin cos : Number) (p : Point.t) : Point.t :=
  Point.mk (cos * Point.x p + sin * Point.y p)
           (- sin * Point.x p + cos * Point.y p).

(** The four residues of a forward turn count. *)
Definition turns_of_residue (r : Z) (p : Point.t) : Point.t :=
  match r with
  | 0%Z => p
  | 1%Z => rot90 p
  | 2%Z => rot90 (rot90 p)
  | _ => rot90_back p
  end.

(** ** Snap points *)

(** A rational stand-in for the host's sine and cosine (the first terms of
    their series), used to run [recalculate] on concrete points. *)
Definition series_trig : Trig := {|
  Math_sin a := a - a * a * a / num 6;
  Math_cos a := 1 - a * a / num 2
|}.

Section SnapPointTerms.
Import SnapPoint.

(** The offset and the mid point of a snap point as points. *)
Definition offset (sp : t) : Point.t :=
  Point.mk (coordX (relPosition sp)) (coordY (relPosition sp)).
Definition as_point (p : PointAlike) : Point.t :=
  Point.mk (coordX p) (coordY p).

End SnapPointTerms.

(** ** Line router *)

Section LineDrawerTerms.
Import LineDrawer.

(** Pointer events as the drawer sees them. *)
Inductive Event : Type :=
| Click (snappedPoint : Point.t)
| Move (snappedPoint : Point.t).

Definition step (e : Event) (st : t) : result t :=
  match e with
  | Click p => clickListener p st
  | Move p => moveListener p st
  end.

Fixpoint run (es : list Event) (st : t) : result t :=
  match es with
  | [] => Ok st
  | e :: es' => try st' := step e st in run es' st'
  end.

(** The absolute value, for the wording of the design document. *)
Definition Math_abs (a : Number) : Number := if ltb a 0 then - a else a.

(** A line is in progress: both the line and its last fixed point exist. *)
Definition inProgress (st : t) : Prop :=
  is_Some (newLine st) /\ is_Some (lastPoint st).

(** C3 as stated: whenever a line is in progress, a recorded direction
    left or right forces vertical-first, and up or down forces
    horizontal-first. *)
Definition always_perpendicular (st : t) (p : Point.t) : Prop :=
  inProgress st ->
  exists st', moveListener p st = Ok st'
    /\ (left (lastLineDirection st) || right (lastLineDirection st) = true ->
        horizontalFirst st' = false)
    /\ (up (lastLineDirection st) || down (lastLineDirection st) = true ->
        horizontalFirst st' = true).

(** The drawer after start (0, 0), a move and a click at (5, 0): the
    committed segment ran to the right. *)
Definition after_segment_right : t :=
  mk (Some {| startPoint := Point.mk 0 0;
              corners := [(true, Point.mk (num 5) 0)];
              mousePoint := Some (true, Point.mk (num 5) 0) |})
     (Some (Point.mk (num 5) 0)) true true
     {| up := false; right := true; down := false; left := false |}
     (Some false) (Some true) false None true [].

End LineDrawerTerms.

(** ** Selection engine *)

Section SelectionTerms.
Import SelectionController.
Context {O : Type} `{CanvasObject O}.

(** [o'] differs from [o] by calls of [showBoundingBox] and
    [hideBoundingBox] only. *)
Inductive highlightOnly : O -> O -> Prop :=
| highlight_same (o : O) : highlightOnly o o
| highlight_show (o o' : O) : highlightOnly o o' -> highlightOnly o (showBoundingBox o')
| highlight_hide (o o' : O) : highlightOnly o o' -> highlightOnly o (hideBoundingBox o').

(** The translation [flipSelection] applies after the local flip, for the
    offset [d] of the object's centre from the pivot. *)
Definition flipTranslation (horizontal : bool) (d : Point.t) : Point.t :=
  if horizontal then Point.mk 0 (num (-2) * Point.y d)
  else Point.mk (num (-2) * Point.x d) 0.

(** The translation as the design document words it: [horizontal] doubles
    and negates the x-offset. *)
Definition flipTranslationAsWorded (horizontal : bool) (d : Point.t) : Point.t :=
  if horizontal then Point.mk (num (-2) * Point.x d) 0
  else Point.mk 0 (num (-2) * Point.y d).

(** The same with the offset measured from the object's centre to the pivot
    instead of from the pivot to the centre. *)
Definition flipTranslationAsWordedTo (horizontal : bool) (d : Point.t) : Point.t :=
  flipTranslationAsWorded horizontal (Point.minus (Point.mk 0 0) d).

Definition boxCenter (o : O) : Point.t :=
  Point.mk (Box.cx (bbox o)) (Box.cy (bbox o)).

Definition recalculateIfNode (o : O) : O :=
  if isNodeComponentInstance o then recalculateSnappingPoints o else o.

(** [flipSelection] flips every selected object and translates it by
    [translation] of its offset from the shared pivot. *)
Definition flipsWith (translation : bool -> Point.t -> Point.t)
    (horizontal : bool) (st : t O) : Prop :=
  exists pivot st',
    centerOf (getOverallBoundingBox st) = Ok pivot
    /\ flipSelection horizontal st = Ok st'
    /\ (forall l, l ∈ currentlySelectedLines st ->
        heap st' l
        = moveRel (translation horizontal (Point.minus (boxCenter (heap st l)) pivot))
                  (flip horizontal (heap st l)))
    /\ (forall c, c ∈ currentlySelectedComponents st ->
        heap st' c
        = recalculateIfNode
            (moveRel (translation horizontal
                        (Point.minus (getAnchorPoint (heap st c)) pivot))
                     (flip horizontal (heap st c)))).

(** The selection holds every object once. *)
Definition selectionIsSet (st : t O) : Prop :=
  NoDup (currentlySelectedLines st)
  /\ NoDup (currentlySelectedComponents st)
  /\ (forall i, i ∈ currentlySelectedLines st -> i ∉ currentlySelectedComponents st).

End SelectionTerms.

(** ** A concrete object class

    Square outlines that keep a log of the calls they receive.  They stand
    for lines and component instances wherever the controller is run on a
    concrete document. *)

Inductive Call : Type :=
| CallShowBoundingBox
| CallHideBoundingBox
| CallRotate (angleDeg : Number)
| CallFlip (horizontal : bool)
| CallMoveRel (delta : Point.t)
| CallMoveTo (position : Point.t)
| CallRecalculateSnappingPoints.

Record Outline : Type := {
  outlineBox : Box.t;
  outlineIsNode : bool;
  outlineVisible : bool;
  outlineCalls : list Call
}.

Definition outlineCenter (o : Outline) : Point.t :=
  Point.mk (Box.cx (outlineBox o)) (Box.cy (outlineBox o)).

Definition logCall (c : Call) (o : Outline) : Outline :=
  {| outlineBox := outlineBox o; outlineIsNode := outlineIsNode o;
     outlineVisible := outlineVisible o; outlineCalls := outlineCalls o ++ [c] |}.

Definition shiftOutline (d : Point.t) (o : Outline) : Outline :=
  {| outlineBox := Box.mk (Box.x (outlineBox o) + Point.x d)
                          (Box.y (outlineBox o) + Point.y d)
                          (Box.width (outlineBox o)) (Box.height (outlineBox o));
     outlineIsNode := outlineIsNode o; outlineVisible := outlineVisible o;
     outlineCalls := outlineCalls o |}.

Definition setVisible (b : bool) (o : Outline) : Outline :=
  {| outlineBox := outlineBox o; outlineIsNode := outlineIsNode o;
     outlineVisible := b; outlineCalls := outlineCalls o |}.

(** Two boxes overlap. *)
Definition overlaps (a b : Box.t) : bool :=
  negb (ltb (Box.x b + Box.width b) (Box.x a))
  && negb (ltb (Box.x a + Box.width a) (Box.x b))
  && negb (ltb (Box.y b + Box.height b) (Box.y a))
  && negb (ltb (Box.y a + Box.height a) (Box.y b)).

#[local] Instance outline_object : SelectionController.CanvasObject Outline := {|
  SelectionController.isInsideSelectionRectangle o b := overlaps (outlineBox o) b;
  SelectionController.showBoundingBox o := logCall CallShowBoundingBox (setVisible true o);
  SelectionController.hideBoundingBox o := logCall CallHideBoundingBox (setVisible false o);
  SelectionController.bbox := outlineBox;
  SelectionController.rotate a o := logCall (CallRotate a) o;
  SelectionController.flip h o := logCall (CallFlip h) o;
  SelectionController.moveRel d o := logCall (CallMoveRel d) (shiftOutline d o);
  SelectionController.moveTo p o :=
    logCall (CallMoveTo p) (shiftOutline (Point.minus p (outlineCenter o)) o);
  SelectionController.getAnchorPoint := outlineCenter;
  SelectionController.isNodeComponentInstance := outlineIsNode;
  SelectionController.recalculateSnappingPoints o := logCall CallRecalculateSnappingPoints o;
  SelectionController.rotatePoint a c p :=
    Point.plus c (rotate_quarter_turns (Qfloor (a / num 90)) (Point.minus p c))
|}.

(** A square outline of side 2 with its corner at (x, y). *)
Definition squareAt (x y : Z) (isNode : bool) : Outline :=
  {| outlineBox := Box.mk (num x) (num y) (num 2) (num 2);
     outlineIsNode := isNode; outlineVisible := false; outlineCalls := [] |}.

(** A document with the line 1 at (0, 0) and the node component 2 at
    (10, 20); [selected] says whether both are selected. *)
Definition twoSquares (selected : bool) : SelectionController.t Outline :=
  SelectionController.mk SelectionController.RESET [2%positive] [1%positive]
    (Point.mk 0 0) (Box.mk 0 0 0 0) false
    (if selected then [2%positive] else [])
    (if selected then [1%positive] else [])
    true
    (fun i => if bool_decide (i = 1%positive) then squareAt 0 0 false
              else squareAt 10 20 true).

(** ** Component symbols *)

(** A drawing library without unit suffixes: text that is a plain decimal is
    its value in pixels, any other text counts as 0.  Used to run the parser
    on concrete symbols. *)
Definition plainUnits : ComponentSymbol.Units :=
  {| ComponentSymbol.lengthToPx s :=
       if ComponentSymbol.numberRegEx_test s then ComponentSymbol.parseFloat s else 0 |}.

(** The pin of the scenario: [{name: "G", x: 2, y: 3}]. *)
Definition pinG : ComponentSymbol.Element :=
  ComponentSymbol.mkElement "pin" ComponentSymbol.METADATA_NAMESPACE_URI
    (<["anchorName" := "G"]> (<["x" := "2"]> (<["y" := "3"]> ∅))) [].

(** A symbol whose component information has exactly the attributes
    [attrs]. *)
Definition symbolWith (attrs : gmap string string) : ComponentSymbol.Element :=
  ComponentSymbol.mkElement "symbol" ComponentSymbol.SVG_NAMESPACE_URI ∅
    [ComponentSymbol.mkElement "metadata" ComponentSymbol.SVG_NAMESPACE_URI ∅
       [ComponentSymbol.mkElement "componentinformation"
          ComponentSymbol.METADATA_NAMESPACE_URI attrs []]].

(** A resistor that names its tikz style and nothing else. *)
Definition resistorSymbol : ComponentSymbol.Element :=
  symbolWith (<["tikzName" := "R"]> ∅).

Section ComponentSymbolTerms.
Import ComponentSymbol.
Context `{Units}.

(** An attribute of the component information of a symbol. *)
Definition metadataAttribute (n : string) (symbolElement : Element) : option string :=
  match List.find isSVGMetadataElement (children symbolElement) with
  | Some md =>
      match getNamedTag md "componentinformation" METADATA_NAMESPACE_URI with
      | Some ci => getAttribute n ci
      | None => None
      end
  | None => None
  end.

(** C7 as stated: construction throws exactly when the display name or the
    tikz name is absent, and succeeds otherwise. *)
Definition nameAbsent (symbolElement : Element) : Prop :=
  metadataAttribute "displayName" symbolElement = None
  \/ metadataAttribute "tikzName" symbolElement = None.

Definition throwsExactlyWhenNameAbsent (symbolElement : Element) : Prop :=
  (nameAbsent symbolElement -> new symbolElement None = Throw missingMetadata)
  /\ (~ nameAbsent symbolElement -> exists s, new symbolElement None = Ok s).

(** What makes construction fail: no metadata element, a tikz name that is
    absent or empty, or a display name given as the empty text. *)
Definition lacksMetadata (symbolElement : Element) : bool :=
  match List.find isSVGMetadataElement (children symbolElement) with
  | None => true
  | Some _ =>
      negb (truthy (metadataAttribute "tikzName" symbolElement))
      || bool_decide (metadataAttribute "displayName" symbolElement = Some "")
  end.

End ComponentSymbolTerms.

(** ** Snap points: listeners *)

(** How many of the notifications [notes] went to the listener [l]. *)
Definition notified (l : SnapPoint.Listener) (notes : list SnapPoint.Notification) : nat :=
  length (filter (fun n => SnapPoint.listener n = l) notes).

(** ** Line router: sessions *)

Section LineDrawerSessions.
Import LineDrawer.

(** The states a drawer passes through: it is activated, receives clicks
    and moves, is confirmed (the button that calls [#onOK] is only offered
    while the drawer has made the action button visible) or cancelled, and
    is deactivated and activated again when the tool is switched. *)
Inductive Reachable : t -> Prop :=
| reachable_activate : Reachable (activate init)
| reachable_click (p : Point.t) (st st' : t) :
    Reachable st -> clickListener p st = Ok st' -> Reachable st'
| reachable_move (p : Point.t) (st st' : t) :
    Reachable st -> moveListener p st = Ok st' -> Reachable st'
| reachable_ok (st st' : t) :
    Reachable st -> fabVisible st = true -> lineEnd st = Ok st' -> Reachable st'
| reachable_cancel (st : t) : Reachable st -> Reachable (onCancel st)
| reachable_switch (st : t) : Reachable st -> Reachable (activate (deactivate st)).

(** The points of a line that clicks have fixed, in order. *)
Definition fixedPoints (l : Line) : list Point.t :=
  startPoint l :: map snd (corners l).

(** No two neighbours in the list are the same point. *)
Fixpoint adjacentDistinct (ps : list Point.t) : Prop :=
  match ps with
  | a :: (b :: _) as rest => a <> b /\ adjacentDistinct rest
  | _ => True
  end.

(** How many of the four direction flags are set. *)
Definition flagCount (d : Direction) : nat :=
  Nat.b2n (up d) + Nat.b2n (right d) + Nat.b2n (down d) + Nat.b2n (left d).

(** A finished line: at least one segment, no segment of length zero, no
    provisional segment. *)
Definition finished (l : Line) : Prop :=
  mousePoint l = None /\ corners l <> [] /\ adjacentDistinct (fixedPoints l).

(** What holds of the drawer between events. *)
Definition consistent (st : t) : Prop :=
  match newLine st, lastPoint st with
  | None, None => fabVisible st = false
  | Some l, Some p =>
      List.last (fixedPoints l) p = p
      /\ adjacentDistinct (fixedPoints l)
      /\ (fabVisible st = true -> corners l <> [])
  | _, _ => False
  end
  /\ (flagCount (lastLineDirection st) <= 1)%nat
  /\ Forall finished (addedLines st).

End LineDrawerSessions.

(** ** Selection engine: boxes *)

(** The box [outer] reaches at least as far as [inner] on all four sides. *)
Definition encloses (outer inner : Box.t) : Prop :=
  Box.x outer <= Box.x inner
  /\ Box.y outer <= Box.y inner
  /\ Box.x inner + Box.width inner <= Box.x outer + Box.width outer
  /\ Box.y inner + Box.height inner <= Box.y outer + Box.height outer.

(** ** Selection engine: the committed selection *)

Section SelectionCommitTerms.
Import SelectionController.
Context {O : Type} `{CanvasObject O}.

(** The object [j] of the heap [h] meets the marquee [selectionBox]. *)
Definition meets (h : oid -> O) (selectionBox : Box.t) (j : oid) : Prop :=
  isInsideSelectionRectangle (h j) selectionBox = true.

(** Which objects a release selects, for the objects [ids] of the document
    and the selection [selected] before. *)
Definition committed (mode : SelectionMode) (h : oid -> O) (selectionBox : Box.t)
    (ids selected : list oid) (j : oid) : Prop :=
  match mode with
  | RESET => (j ∈ ids /\ meets h selectionBox j) \/ ((j ∉ ids) /\ j ∈ selected)
  | ADD => j ∈ selected \/ (j ∈ ids /\ meets h selectionBox j)
  | SUB => j ∈ selected /\ ~ (j ∈ ids /\ meets h selectionBox j)
  end.

End SelectionCommitTerms.

(** ** Component symbols: text that is no plain decimal *)

(** The text has a character that is neither a digit nor a full stop. *)
Fixpoint hasOtherChar (s : string) : bool :=
  match s with
  | EmptyString => false
  | String c s' =>
      negb (ComponentSymbol.isDigit c || bool_decide (c = "."%char))
      || hasOtherChar s'
  end.

(** All anchors of a symbol in the order they are parsed. *)
Definition parsedAnchors (s : ComponentSymbol.t) : list ComponentSymbol.TikZAnchor :=
  ComponentSymbol._pins s ++ ComponentSymbol._additionalAnchors s
  ++ match ComponentSymbol._textAnchor s with
     | Some a => [a]
     | None => []
     end.

(** ** Further concrete inputs *)

(** A point format that writes the same text for every point; what
    [toTikzString] writes for a named anchor does not go through it. *)
Definition fixedFormat : SnapPoint.PointFormat :=
  {| SnapPoint.Point_toTikzString _ := "(0, 0)"%string |}.

(** The node R1 and the snap point of its anchor G at (3, 4). *)
Definition nodeR1 : SnapPoint.Owner :=
  {| SnapPoint.nodeName := Some "R1"%string; SnapPoint.mid := None |}.
Definition anchorGOfR1 : SnapPoint.t :=
  SnapPoint.mk (Some nodeR1) (Some "G"%string) (SnapPoint.PObj 0 0)
    (SnapPoint.PObj (num 3) (num 4)) 0 true [] (num 3) (num 4).

(** A snap point with offset (3, 4), in degree or in radian mode. *)
Definition offsetThreeFour (inDegree : bool) : SnapPoint.t :=
  SnapPoint.mk None None (SnapPoint.PObj 0 0) (SnapPoint.PObj (num 3) (num 4))
    0 inDegree [] 0 0.

(** The two squares while a marquee is dragged in mode ADD from (-1, -1)
    over the line 1, with the component 2 selected. *)
Definition draggingOverLine : SelectionController.t Outline :=
  SelectionController.mk SelectionController.ADD [2%positive] [1%positive]
    (Point.mk (num (-1)) (num (-1)))
    (Box.mk (num (-1)) (num (-1)) (num 4) (num 4)) true
    [2%positive] [] true (SelectionController.heap (twoSquares false)).

(** The two squares with the line 1 selected and the component 2 not. *)
Definition onlyLineSelected : SelectionController.t Outline :=
  SelectionController.mk SelectionController.RESET [2%positive] [1%positive]
    (Point.mk 0 0) (Box.mk 0 0 0 0) false [] [1%positive] true
    (SelectionController.heap (twoSquares false)).

(** A press of the left button at (1, 1) with the shift key held. *)
Definition shiftPressAtLine : SelectionController.MouseEvent :=
  {| SelectionController.button := 0; SelectionController.shift := true;
     SelectionController.ctrl := false;
     SelectionController.pointer := Point.mk (num 1) (num 1) |}.

(** A pin whose coordinates carry a unit and a sign:
    [{name: "G", x: "0.5cm", y: "-1"}]. *)
Definition pinWithUnit : ComponentSymbol.Element :=
  ComponentSymbol.mkElement "pin" ComponentSymbol.METADATA_NAMESPACE_URI
    (<["anchorName" := "G"]> (<["x" := "0.5cm"]> (<["y" := "-1"]> ∅))) [].

(** A symbol with the pins A and B, both marked as default. *)
Definition twoDefaultPins : ComponentSymbol.Element :=
  ComponentSymbol.mkElement "symbol" ComponentSymbol.SVG_NAMESPACE_URI ∅
    [ComponentSymbol.mkElement "metadata" ComponentSymbol.SVG_NAMESPACE_URI ∅
       [ComponentSymbol.mkElement "componentinformation"
          ComponentSymbol.METADATA_NAMESPACE_URI (<["tikzName" := "R"]> ∅)
          [ComponentSymbol.mkElement "pins" ComponentSymbol.METADATA_NAMESPACE_URI ∅
             [ComponentSymbol.mkElement "pin" ComponentSymbol.METADATA_NAMESPACE_URI
                (<["anchorName" := "A"]> (<["isDefault" := "true"]> ∅)) [];
              ComponentSymbol.mkElement "pin" ComponentSymbol.METADATA_NAMESPACE_URI
                (<["anchorName" := "B"]> (<["isDefault" := "true"]> ∅)) []]]]].

(** * Theorems *)

(** ** Facts about the number model *)

(** Closes [num z <> 0] for a literal [z]. *)
Ltac num_nonzero :=
  rewrite <- Z2Qc_inj_0; let E := fresh in intros E; apply Z2Qc_inj in E; discriminate E.

Section NumberFacts.

Lemma Qfloor_num (k : Z) : Qfloor (num k) = k.
Proof. apply Qfloor_Z. Qed.

Lemma isInteger_num (k : Z) : isInteger (num k) = true.
Proof.
  unfold isInteger. apply bool_decide_eq_true. now rewrite Qfloor_num.
Qed.

Lemma ltb_num (n m : Z) : ltb (num n) (num m) = bool_decide (n < m)%Z.
Proof. unfold ltb. apply bool_decide_ext. symmetry. apply Z2Qc_inj_lt. Qed.

Lemma num_div_Qeq (n m : Z) :
  ((num n / num m)%Qc == inject_Z n / inject_Z m)%Q.
Proof.
  unfold Qcdiv, Qcmult, Qcinv, Q2Qc; simpl.
  now rewrite !Qred_correct.
Qed.

Lemma num_div_opp_Qeq (n m : Z) :
  (- (num n / num m)%Qc == inject_Z (- n) / inject_Z m)%Q.
Proof.
  rewrite (num_div_Qeq n m).
  unfold Qdiv. rewrite inject_Z_opp. ring.
Qed.

Lemma num_div_neg (n : Z) : ltb (num n / num 4) 0 = bool_decide (n < 0)%Z.
Proof.
  unfold ltb. apply bool_decide_ext. unfold Qclt.
  setoid_rewrite (num_div_Qeq n 4). unfold Qlt, Qdiv; simpl. lia.
Qed.

(** Two points with equal coordinates are the same point. *)
Lemma Point_mk_canon (a b c d : Number) :
  (a == c)%Q -> (b == d)%Q -> Point.mk a b = Point.mk c d.
Proof. intros Ha Hb. f_equal; now apply Qc_is_canon. Qed.

(** [n % 4] on integers: the truncated remainder. *)
Lemma rem_num_4 (n : Z) : rem (num n) (num 4) = num (Z.rem n 4).
Proof.
  unfold rem, trunc. rewrite num_div_neg.
  rewrite (Qfloor_comp _ _ (num_div_Qeq n 4)).
  rewrite (Qfloor_comp _ _ (num_div_opp_Qeq n 4)).
  rewrite <- !Zdiv_Qdiv.
  pose proof (Z.quot_rem' n 4) as Hq.
  assert ((if bool_decide (n < 0)%Z then (- (- n / 4))%Z else (n / 4)%Z)
          = Z.quot n 4) as Ht.
  { case_bool_decide as Hn.
    - rewrite <- (Z.opp_involutive n) at 2.
      rewrite Z.quot_opp_l by lia. now rewrite Z.quot_div_nonneg by lia.
    - now rewrite Z.quot_div_nonneg by lia. }
  rewrite Ht, <- Z2Qc_inj_mul, <- Z2Qc_inj_sub. f_equal. lia.
Qed.

End NumberFacts.

(** ** Quarter turns *)

Section QuarterTurns.

Lemma rot90_four (p : Point.t) : rot90 (rot90 (rot90 (rot90 p))) = p.
Proof. destruct p as [a b]. unfold rot90; simpl. now rewrite !Qcopp_involutive. Qed.

Lemma rot90_back_four (p : Point.t) :
  rot90_back (rot90_back (rot90_back (rot90_back p))) = p.
Proof. destruct p as [a b]. unfold rot90_back; simpl. now rewrite !Qcopp_involutive. Qed.

Lemma rot90_back_rot90 (p : Point.t) : rot90_back (rot90 p) = p.
Proof. destruct p as [a b]. unfold rot90, rot90_back; simpl. now rewrite Qcopp_involutive. Qed.

Lemma iter_period_four {A : Type} (f : A -> A) (x : A) (q r : nat) :
  (forall a, f (f (f (f a))) = a) ->
  Nat.iter (4 * q + r) f x = Nat.iter r f x.
Proof.
  intros Hf. induction q as [|q IH]; [reflexivity|].
  replace (4 * S q + r)%nat with (S (S (S (S (4 * q + r))))) by lia.
  simpl. rewrite Hf. exact IH.
Qed.

Lemma rotate_quarter_turns_mod (k : Z) (p : Point.t) :
  rotate_quarter_turns k p = turns_of_residue (k mod 4) p.
Proof.
  pose proof (Z.div_mod k 4 ltac:(lia)) as Hdm.
  pose proof (Z.mod_pos_bound k 4 ltac:(lia)) as Hb.
  destruct k as [|n|n]; [reflexivity| |]; simpl rotate_quarter_turns;
    rewrite Pos2Nat.inj_iter.
  - replace (Pos.to_nat n)
      with (4 * Z.to_nat (Z.pos n / 4) + Z.to_nat (Z.pos n mod 4))%nat by lia.
    etrans; [exact (iter_period_four rot90 p _ _ rot90_four)|].
    assert (Z.pos n mod 4 = 0 \/ Z.pos n mod 4 = 1 \/ Z.pos n mod 4 = 2
            \/ Z.pos n mod 4 = 3)%Z as [-> | [-> | [-> | ->]]] by lia;
      simpl; try reflexivity.
    rewrite <- (rot90_back_rot90 (rot90 (rot90 (rot90 p)))).
    now rewrite rot90_four.
  - replace (Pos.to_nat n)
      with (4 * Z.to_nat (- (Z.neg n / 4) - 1)
            + Z.to_nat (4 - Z.neg n mod 4))%nat by lia.
    etrans; [exact (iter_period_four rot90_back p _ _ rot90_back_four)|].
    assert (Z.neg n mod 4 = 0 \/ Z.neg n mod 4 = 1 \/ Z.neg n mod 4 = 2
            \/ Z.neg n mod 4 = 3)%Z as [-> | [-> | [-> | ->]]] by lia;
      simpl.
    + apply rot90_back_four.
    + rewrite <- (rot90_back_rot90 (rot90_back (rot90_back (rot90_back p)))).
      f_equal. destruct p as [a b]. unfold rot90, rot90_back; simpl.
      now rewrite !Qcopp_involutive.
    + destruct p as [a b]. reflexivity.
    + reflexivity.
Qed.

End QuarterTurns.

(** ** Properties of [SnapPoint] *)

Section SnapPointProperties.
Import SnapPoint.
Context `{Trig}.

Lemma normalize_quadrant_num (n : Z) :
  normalize_quadrant (num n) = num (n mod 4).
Proof.
  unfold normalize_quadrant. rewrite rem_num_4.
  rewrite <- Z2Qc_inj_0, ltb_num.
  pose proof (Z.quot_rem' n 4) as Hq.
  pose proof (Z.div_mod n 4 ltac:(lia)) as Hd.
  pose proof (Z.mod_pos_bound n 4 ltac:(lia)) as Hb.
  assert (- 4 < Z.rem n 4 < 4 /\ (Z.rem n 4 < 0 -> n < 0)
          /\ (n < 0 -> Z.rem n 4 <= 0))%Z as Hrem.
  { destruct (Z_lt_le_dec n 0) as [Hn|Hn].
    - pose proof (Z.rem_bound_pos (- n) 4 ltac:(lia) ltac:(lia)).
      pose proof (Z.rem_opp_l' n 4). lia.
    - pose proof (Z.rem_bound_pos n 4 Hn ltac:(lia)). lia. }
  case_bool_decide as Hr; [rewrite <- Z2Qc_inj_add|]; f_equal; lia.
Qed.

(** The index into the two tables is always one of 0..3. *)
Lemma quadrant_index_bounds (n : Z) :
  (0 <= Qfloor (normalize_quadrant (num n)) < 4)%Z.
Proof.
  rewrite normalize_quadrant_num, Qfloor_num.
  apply Z.mod_pos_bound. lia.
Qed.

(** In the integer branch the rotation of [recalculate] is the rotation by
    as many quarter turns as the quadrant says. *)
Lemma sin_cos_integer_quadrant (inDeg : bool) (a : Number) (n : Z) (p : Point.t) :
  (if inDeg then a / num 90 else (a * num 180) / Math_PI) = num n ->
  rotate_with (fst (sin_cos inDeg a)) (snd (sin_cos inDeg a)) p
  = rotate_quarter_turns n p.
Proof.
  intros Hq. unfold sin_cos. rewrite Hq, isInteger_num, normalize_quadrant_num.
  rewrite rotate_quarter_turns_mod.
  pose proof (Z.mod_pos_bound n 4 ltac:(lia)) as Hb.
  assert (n mod 4 = 0 \/ n mod 4 = 1 \/ n mod 4 = 2 \/ n mod 4 = 3)%Z
    as [-> | [-> | [-> | ->]]] by lia;
    destruct p as [px py]; cbn [turns_of_residue];
    unfold rotate_with, at_index, rot90, rot90_back; simpl; f_equal; ring.
Qed.

(** There the sine and the cosine come from the two tables, whatever the
    host's [Math.sin] and [Math.cos] are. *)
Lemma sin_cos_table_values (inDeg : bool) (a : Number) (n : Z) :
  (if inDeg then a / num 90 else (a * num 180) / Math_PI) = num n ->
  (fst (sin_cos inDeg a) = 0 \/ fst (sin_cos inDeg a) = 1
   \/ fst (sin_cos inDeg a) = -1)
  /\ (snd (sin_cos inDeg a) = 0 \/ snd (sin_cos inDeg a) = 1
      \/ snd (sin_cos inDeg a) = -1).
Proof.
  intros Hq. unfold sin_cos. rewrite Hq, isInteger_num, normalize_quadrant_num.
  pose proof (Z.mod_pos_bound n 4 ltac:(lia)) as Hb.
  assert (n mod 4 = 0 \/ n mod 4 = 1 \/ n mod 4 = 2 \/ n mod 4 = 3)%Z
    as [-> | [-> | [-> | ->]]] by lia;
    unfold at_index; simpl; auto.
Qed.

Lemma position_recalculate (newMid : option PointAlike)
    (newAngle : option Number) (sp : t) :
  let m := match newMid with Some m => m | None => midPoint sp end in
  let a := match newAngle with Some a => a | None => angle sp end in
  position (fst (recalculate newMid newAngle sp))
  = Point.plus (rotate_with (fst (sin_cos (inDegree sp) a))
                            (snd (sin_cos (inDegree sp) a)) (offset sp))
               (as_point m).
Proof.
  unfold recalculate. destruct (sin_cos _ _) as [s c]. reflexivity.
Qed.

(** What [recalculate] never touches. *)
Lemma recalculate_keeps (newMid : option PointAlike)
    (newAngle : option Number) (sp : t) :
  let sp' := fst (recalculate newMid newAngle sp) in
  relPosition sp' = relPosition sp /\ inDegree sp' = inDegree sp
  /\ changeListeners sp' = changeListeners sp
  /\ instance sp' = instance sp /\ anchorName sp' = anchorName sp.
Proof.
  unfold recalculate. destruct (sin_cos _ _) as [s c]. simpl. auto.
Qed.

(** X1.  Degree mode: an angle of [90 * k] degrees gives the offset turned
    by [k] quarter turns, moved to the mid point, through the table
    branch. *)
Lemma recalculate_degree_quadrant (sp : t) (m : PointAlike) (k : Z) :
  inDegree sp = true ->
  position (fst (recalculate (Some m) (Some (num (90 * k))) sp))
  = Point.plus (rotate_quarter_turns k (offset sp)) (as_point m).
Proof.
  intros Hdeg. rewrite position_recalculate, Hdeg. f_equal.
  apply sin_cos_integer_quadrant.
  rewrite Z2Qc_inj_mul. field. num_nonzero.
Qed.

End SnapPointProperties.

Section SnapPointClaims.
Import SnapPoint.
Context `{Trig}.

Lemma Math_PI_nonzero : Math_PI <> 0.
Proof. intros E. apply (f_equal this) in E. discriminate E. Qed.

(** C1 (radian mode).  A snap point in radian mode with offset (1, 0) and
    mid (0, 0), recalculated at the angle [Math.PI / 2]: the design document
    asks for the offset turned by one quarter turn, (0, -1); the code takes
    the table branch with quadrant 90, index 2, and places the point at
    (-1, 0), the offset turned by a half turn. *)
Theorem recalculate_radian_quarter_turn_is_half_turn :
  let sp := mk None None (PObj 0 0) (PObj 1 0) 0 false [] 0 0 in
  let sp' := fst (recalculate (Some (PObj 0 0)) (Some (Math_PI / num 2)) sp) in
  sin_cos false (Math_PI / num 2) = (0, -1)
  /\ position sp' = Point.mk (-1) 0
  /\ Point.plus (rotate_quarter_turns 1 (offset sp)) (as_point (PObj 0 0))
     = Point.mk 0 (-1)
  /\ position sp'
     <> Point.plus (rotate_quarter_turns 1 (offset sp)) (as_point (PObj 0 0)).
Proof.
  cbv zeta.
  assert (sin_cos false (Math_PI / num 2) = (0, -1)) as Hsc.
  { unfold sin_cos.
    replace (Math_PI / num 2 * num 180 / Math_PI) with (num 90)
      by (apply Qc_is_canon; reflexivity).
    rewrite isInteger_num, normalize_quadrant_num. reflexivity. }
  split; [exact Hsc|].
  split; [|split].
  - rewrite position_recalculate. cbn [inDegree]. rewrite Hsc.
    now apply Point_mk_canon.
  - now apply Point_mk_canon.
  - rewrite position_recalculate. cbn [inDegree]. rewrite Hsc.
    intros E. apply (f_equal Point.x), (f_equal this) in E. discriminate E.
Qed.

(** C8.  Recalculating at mid [m2] and then at mid [m1] (same angle) leaves
    the point where a single recalculation at [m1] puts it. *)
Theorem recalculate_last_mid_decides (sp : t) (m1 m2 : PointAlike) (a : Number) :
  m1 <> m2 ->
  position (fst (recalculate (Some m1) (Some a)
                   (fst (recalculate (Some m2) (Some a) sp))))
  = position (fst (recalculate (Some m1) (Some a) sp)).
Proof.
  intros _. rewrite !position_recalculate.
  destruct (recalculate_keeps (Some m2) (Some a) sp) as (Hrel & Hdeg & _).
  unfold offset. now rewrite Hrel, Hdeg.
Qed.

(** C10.  [removeInstance] tells every listener about the deletion and
    drops the owner; a later [recalculate(newMid, angle)] still stores the
    mid point and the angle, moves the point exactly as it would have
    before the removal, and tells every listener with [isDeleted = false]. *)
Theorem recalculate_after_removeInstance (sp : t) (m : PointAlike) (a : Number) :
  let removed := fst (removeInstance sp) in
  let sp' := fst (recalculate (Some m) (Some a) removed) in
  snd (removeInstance sp)
    = map (fun l => Build_Notification l (position sp) (x sp) (y sp) true)
          (changeListeners sp)
  /\ instance removed = None
  /\ midPoint sp' = m
  /\ angle sp' = a
  /\ position sp'
     = Point.plus (rotate_with (fst (sin_cos (inDegree sp) a))
                               (snd (sin_cos (inDegree sp) a)) (offset sp))
                  (as_point m)
  /\ position sp' = position (fst (recalculate (Some m) (Some a) sp))
  /\ changeListeners sp' = changeListeners sp
  /\ snd (recalculate (Some m) (Some a) removed)
     = map (fun l => Build_Notification l (position sp') (x sp) (y sp) false)
           (changeListeners sp).
Proof.
  cbv zeta. rewrite !position_recalculate.
  unfold recalculate, removeInstance, position; simpl.
  destruct (sin_cos (inDegree sp) a) as [s c]; simpl.
  repeat split; reflexivity.
Qed.

End SnapPointClaims.

(** C8 at a concrete point: offset (3, 4), mids (10, 10) and (0, 0), a
    quarter turn in degree mode. *)
Lemma recalculate_last_mid_decides_witness :
  let sp := SnapPoint.mk None None (SnapPoint.PObj 0 0)
              (SnapPoint.PObj (num 3) (num 4)) 0 true [7%nat] 0 0 in
  SnapPoint.PObj (num 10) (num 10) <> SnapPoint.PObj 0 0
  /\ SnapPoint.position
       (fst (SnapPoint.recalculate (H := series_trig)
               (Some (SnapPoint.PObj (num 10) (num 10))) (Some (num 90))
               (fst (SnapPoint.recalculate (H := series_trig)
                       (Some (SnapPoint.PObj 0 0)) (Some (num 90)) sp))))
     = SnapPoint.position
         (fst (SnapPoint.recalculate (H := series_trig)
                 (Some (SnapPoint.PObj (num 10) (num 10))) (Some (num 90)) sp)).
Proof.
  cbv zeta.
  assert (SnapPoint.PObj (num 10) (num 10) <> SnapPoint.PObj 0 0) as Hne.
  { intros E. injection E as E _. discriminate E. }
  split; [exact Hne|].
  apply (recalculate_last_mid_decides (H := series_trig)). exact Hne.
Defined.

(** ** Properties of the line router *)

Section LineDrawerProperties.
Import LineDrawer.

Lemma clickListener_inProgress (p : Point.t) (st st' : t) :
  (newLine st = None <-> lastPoint st = None) ->
  clickListener p st = Ok st' -> inProgress st'.
Proof.
  unfold clickListener, inProgress. intros Hwf.
  destruct (lastPoint st) as [last|] eqn:Hlast.
  - destruct (newLine st) as [line|] eqn:Hline.
    + destruct (_ && _); intros [= <-]; simpl; rewrite ?Hlast, ?Hline; eauto.
    + destruct Hwf as [Hwf _]. now specialize (Hwf eq_refl).
  - intros [= <-]; simpl; eauto.
Qed.

(** While a line is in progress a pointer move never throws; the bend
    direction it settles on is the value of [horizontalFirst2] in the
    listener. *)
Lemma moveListener_inProgress (p : Point.t) (st : t) (line : Line) (last : Point.t) :
  newLine st = Some line -> lastPoint st = Some last ->
  exists st', moveListener p st = Ok st'
    /\ newLine st' = Some (updateMousePoint (horizontalFirst st') p line)
    /\ lastPoint st' = Some last
    /\ lastLineDirection st' = lastLineDirection st
    /\ holdDirectionSet st' = true.
Proof.
  intros Hline Hlast. unfold moveListener. rewrite Hline, Hlast.
  eexists. split; [reflexivity|]. simpl. auto.
Qed.

(** The first move of a new line: no direction is held and none is
    recorded, and the signed deltas are compared. *)
Lemma moveListener_first_move (p : Point.t) (st : t) (line : Line) (last : Point.t) :
  newLine st = Some line -> lastPoint st = Some last ->
  holdDirectionSet st = false -> lastLineDirection st = noDirection ->
  exists st', moveListener p st = Ok st'
    /\ horizontalFirst st'
       = gtb (Point.x p - Point.x last) (Point.y p - Point.y last).
Proof.
  intros Hline Hlast Hhold Hdir. unfold moveListener.
  rewrite Hline, Hlast, Hhold, Hdir. eexists. split; reflexivity.
Qed.

(** The scenario of the design document: start (0, 0), first move to
    (5, 1). *)
Lemma first_move_right_locks_horizontal :
  exists st, run [Click (Point.mk 0 0); Move (Point.mk (num 5) 1)] init = Ok st
    /\ horizontalFirst st = true /\ holdDirectionSet st = true.
Proof. eexists. split; [reflexivity|]. split; reflexivity. Qed.

(** C2.  Start (0, 0), first move to (-5, 1): no direction is held yet, the
    horizontal distance 5 exceeds the vertical distance 1, and the router
    chooses vertical-first, because it compares -5 with 1. *)
Theorem first_move_left_goes_vertical_first :
  let start := Point.mk 0 0 in
  let cursor := Point.mk (num (-5)) 1 in
  exists s1 s2,
    clickListener start init = Ok s1
    /\ holdDirectionSet s1 = false
    /\ lastLineDirection s1 = noDirection
    /\ moveListener cursor s1 = Ok s2
    /\ ltb (Math_abs (Point.y cursor - Point.y start))
           (Math_abs (Point.x cursor - Point.x start)) = true
    /\ horizontalFirst s2 = false.
Proof.
  cbv zeta. do 2 eexists.
  split; [reflexivity|]. split; [reflexivity|]. split; [reflexivity|].
  split; [reflexivity|]. split; reflexivity.
Qed.

Lemma after_segment_right_reached :
  run [Click (Point.mk 0 0); Move (Point.mk (num 5) 0);
       Click (Point.mk (num 5) 0)] init = Ok after_segment_right.
Proof. reflexivity. Qed.

(** C3, counterexample: after a segment to the right, moving the cursor
    further right to (10, 3) keeps horizontal-first. *)
Lemma always_perpendicular_fails :
  ~ always_perpendicular after_segment_right (Point.mk (num 10) (num 3)).
Proof.
  intros Hclaim.
  destruct Hclaim as (st' & Hmove & Hlr & _).
  { split; simpl; eauto. }
  specialize (Hlr eq_refl).
  assert (moveListener (Point.mk (num 10) (num 3)) after_segment_right
          = Ok st' -> horizontalFirst st' = true) as Hrun.
  { intros E. vm_compute in E. injection E as <-. reflexivity. }
  rewrite (Hrun Hmove) in Hlr. discriminate Hlr.
Qed.

(** C3, amended.  The override looks at the side of the cursor: a recorded
    left (right) direction forces vertical-first when the cursor is (is not)
    to the right of the last fixed point, and failing that a recorded down
    (up) direction forces horizontal-first when the cursor is (is not) above
    it. *)
Theorem moveListener_override_by_cursor_side (p : Point.t) (st : t)
    (line : Line) (last : Point.t) :
  newLine st = Some line -> lastPoint st = Some last ->
  let d := lastLineDirection st in
  let isAboveXAxis := ltb (Point.y p) (Point.y last) in
  let isRightOfYAxis := gtb (Point.x p) (Point.x last) in
  let backHorizontally :=
    (left d && isRightOfYAxis) || (right d && negb isRightOfYAxis) in
  let backVertically :=
    (down d && isAboveXAxis) || (up d && negb isAboveXAxis) in
  exists st', moveListener p st = Ok st'
    /\ (backHorizontally = true -> horizontalFirst st' = false)
    /\ (backHorizontally = false -> backVertically = true ->
        horizontalFirst st' = true).
Proof.
  intros Hline Hlast. cbv zeta. unfold moveListener. rewrite Hline, Hlast.
  eexists. split; [reflexivity|]. simpl.
  split.
  - intros ->. reflexivity.
  - intros -> ->. reflexivity.
Qed.

End LineDrawerProperties.

(** C3, amended, at a concrete input: after the segment to the right, the
    cursor at (2, 7) lies left of the last fixed point (5, 0), and the
    provisional segment is vertical-first. *)
Lemma moveListener_override_by_cursor_side_witness :
  exists st',
    LineDrawer.moveListener (Point.mk (num 2) (num 7)) after_segment_right = Ok st'
    /\ LineDrawer.horizontalFirst st' = false.
Proof.
  destruct (moveListener_override_by_cursor_side (Point.mk (num 2) (num 7))
              after_segment_right
              {| LineDrawer.startPoint := Point.mk 0 0;
                 LineDrawer.corners := [(true, Point.mk (num 5) 0)];
                 LineDrawer.mousePoint := Some (true, Point.mk (num 5) 0) |}
              (Point.mk (num 5) 0) eq_refl eq_refl)
    as (st' & Hmove & Hback & _).
  exists st'. split; [exact Hmove|]. apply Hback. reflexivity.
Defined.

(** ** Properties of the selection engine *)

Section SelectionProperties.
Import SelectionController.
Context {O : Type} `{CanvasObject O}.

(** *** The loops over object references *)

Lemma forEach_lookup (body : O -> O) (ids : list oid) (h : oid -> O) (j : oid) :
  NoDup ids ->
  forEach body ids h j = if bool_decide (j ∈ ids) then body (h j) else h j.
Proof.
  unfold forEach. revert h.
  induction ids as [|i ids IH]; intros h Hnd; [reflexivity|].
  apply NoDup_cons in Hnd as [Hi Hnd]. simpl. rewrite (IH _ Hnd).
  destruct (decide (i = j)) as [->|Hij].
  - rewrite (bool_decide_eq_false_2 _ Hi), fn_lookup_alter.
    rewrite bool_decide_eq_true_2 by left. reflexivity.
  - rewrite fn_lookup_alter_ne by assumption.
    apply not_eq_sym in Hij.
    destruct (decide (j ∈ ids)) as [Hj|Hj].
    + rewrite !bool_decide_eq_true_2; [reflexivity | now right | assumption].
    + rewrite !bool_decide_eq_false_2; [reflexivity | | assumption].
      intros [?|?]%elem_of_cons; contradiction.
Qed.

Lemma forEach_lookup_notin (body : O -> O) (ids : list oid) (h : oid -> O) (j : oid) :
  j ∉ ids -> forEach body ids h j = h j.
Proof.
  unfold forEach. revert h.
  induction ids as [|i ids IH]; intros h Hj; [reflexivity|].
  apply not_elem_of_cons in Hj as [Hji Hj]. simpl.
  rewrite (IH _ Hj). apply fn_lookup_alter_ne. congruence.
Qed.

Lemma hasSelection_false (st : t O) :
  hasSelection st = false <->
  currentlySelectedComponents st = [] /\ currentlySelectedLines st = [].
Proof.
  unfold hasSelection. rewrite orb_false_iff, !bool_decide_eq_false.
  destruct (currentlySelectedComponents st), (currentlySelectedLines st);
    simpl; split; intros [? ?]; split; try reflexivity; try discriminate; lia.
Qed.

Lemma mergeAll_Some (h : oid -> O) (ids : list oid) (b : Box.t) :
  is_Some (mergeAll h ids (Some b)).
Proof.
  unfold mergeAll. revert b. induction ids as [|i ids IH]; intros b; simpl; eauto.
Qed.

Lemma mergeAll_cons (h : oid -> O) (i : oid) (ids : list oid) (b : option Box.t) :
  mergeAll h (i :: ids) b
  = mergeAll h ids (Some (match b with
                          | None => bbox (h i)
                          | Some b => Box.merge b (bbox (h i))
                          end)).
Proof. destruct b; reflexivity. Qed.

Lemma getOverallBoundingBox_Some (st : t O) :
  hasSelection st = true -> is_Some (getOverallBoundingBox st).
Proof.
  unfold hasSelection, getOverallBoundingBox. intros Hsel.
  destruct (currentlySelectedLines st) as [|l ls] eqn:Hl.
  - destruct (currentlySelectedComponents st) as [|c cs] eqn:Hc.
    + discriminate Hsel.
    + rewrite mergeAll_cons. apply mergeAll_Some.
  - rewrite (mergeAll_cons _ l ls).
    destruct (mergeAll_Some (heap st) ls (bbox (heap st l))) as [b Hb].
    rewrite Hb. apply mergeAll_Some.
Qed.

Lemma getOverallBoundingBox_empty (st : t O) :
  hasSelection st = false -> getOverallBoundingBox st = None.
Proof.
  intros [Hc Hl]%hasSelection_false. unfold getOverallBoundingBox.
  now rewrite Hc, Hl.
Qed.

(** *** Empty selection *)

Lemma rotateSelection_empty (angleDeg : Number) (st : t O) :
  hasSelection st = false -> rotateSelection angleDeg st = Ok st.
Proof. intros Hsel. unfold rotateSelection. now rewrite Hsel. Qed.

Lemma flipSelection_empty (horizontal : bool) (st : t O) :
  hasSelection st = false -> flipSelection horizontal st = Ok st.
Proof. intros Hsel. unfold flipSelection. now rewrite Hsel. Qed.

Lemma moveSelectionRel_empty (delta : Point.t) (st : t O) :
  hasSelection st = false -> moveSelectionRel delta st = st.
Proof.
  intros [Hc Hl]%hasSelection_false. unfold moveSelectionRel.
  rewrite Hc, Hl. simpl. destruct st; simpl in *. now subst.
Qed.

(** C5.  With nothing selected, [rotateSelection], [flipSelection] and
    [moveSelectionRel] return the controller unchanged, but
    [moveSelectionTo] throws: it reads the centre of the [null] bounding
    box without the [hasSelection] guard of its siblings. *)
Theorem moveSelectionTo_empty_throws (position : Point.t) (st : t O) :
  hasSelection st = false ->
  moveSelectionTo position st = Throw TypeError.
Proof.
  intros Hsel. unfold moveSelectionTo.
  now rewrite (getOverallBoundingBox_empty _ Hsel).
Qed.

(** *** The marquee preview *)

Lemma highlightOnly_trans (a b c : O) :
  highlightOnly a b -> highlightOnly b c -> highlightOnly a c.
Proof. intros Hab Hbc. induction Hbc; [assumption | |]; constructor; auto. Qed.

Lemma previewLoop_highlightOnly (mode : SelectionMode) (selectionBox : Box.t)
    (selectedIds ids : list oid) (h : oid -> O) (j : oid) :
  highlightOnly (h j) (previewLoop mode selectionBox selectedIds ids h j).
Proof.
  unfold previewLoop. revert h.
  induction ids as [|i ids IH]; intros h; simpl; [constructor|].
  eapply highlightOnly_trans; [|apply IH].
  destruct (decide (i = j)) as [->|Hij].
  - rewrite fn_lookup_alter. destruct (previewCond _ _ _ _); repeat constructor.
  - rewrite fn_lookup_alter_ne by assumption. constructor.
Qed.

Lemma privShowSelection_frame (st : t O) :
  privShowSelection st = withHeap (heap (privShowSelection st)) st
  /\ forall i, highlightOnly (heap st i) (heap (privShowSelection st) i).
Proof.
  split; [reflexivity|]. intros i. unfold privShowSelection; simpl.
  eapply highlightOnly_trans; apply previewLoop_highlightOnly.
Qed.

(** C9.  A pointer move while dragging, with the marquee preview it runs,
    leaves [currentlySelectedComponents] and [currentlySelectedLines] (and
    the mode and the document's collections) as they were; every object
    changes by [showBoundingBox] and [hideBoundingBox] calls only. *)
Theorem mousemove_preview_keeps_selection (pt : Point.t) (st : t O) :
  let st' := mousemove pt st in
  currentlySelectedComponents st' = currentlySelectedComponents st
  /\ currentlySelectedLines st' = currentlySelectedLines st
  /\ selectionMode st' = selectionMode st
  /\ instances st' = instances st
  /\ lines st' = lines st
  /\ forall i, highlightOnly (heap st i) (heap st' i).
Proof.
  cbv zeta. unfold mousemove.
  destruct (currentlyDragging st); [|repeat split; constructor].
  destruct (ltb _ 0), (ltb _ 0); repeat split;
    intros i; match goal with
              | |- context [privShowSelection ?s] =>
                  apply (proj2 (privShowSelection_frame s) i)
              end.
Qed.

End SelectionProperties.

(** ** Flipping the selection *)

Section FlipProperties.
Import SelectionController.
Context {O : Type} `{CanvasObject O}.

(** C4, amended.  [flipSelection(true)] flips each selected object in
    place and moves it by (0, -2 dy), [flipSelection(false)] by
    (-2 dx, 0), where (dx, dy) is the offset of the object's centre from
    the centre of the overall bounding box. *)
Theorem flipSelection_translation (horizontal : bool) (st : t O) :
  hasSelection st = true -> selectionIsSet st ->
  flipsWith flipTranslation horizontal st.
Proof.
  intros Hsel (Hlines & Hcomps & Hdisj). unfold flipsWith.
  destruct (getOverallBoundingBox_Some st Hsel) as [b Hb].
  exists (Point.mk (Box.cx b) (Box.cy b)).
  unfold flipSelection. rewrite Hsel, Hb. simpl.
  eexists. split; [reflexivity|]. split; [reflexivity|]. simpl. split.
  - intros l Hl.
    rewrite forEach_lookup_notin by auto.
    rewrite forEach_lookup by assumption.
    rewrite bool_decide_eq_true_2 by assumption.
    unfold flipTranslation, boxCenter.
    destruct horizontal; simpl; do 2 f_equal; ring.
  - intros c Hc.
    rewrite forEach_lookup by assumption.
    rewrite bool_decide_eq_true_2 by assumption.
    rewrite forEach_lookup_notin by (intros Hl; exact (Hdisj c Hl Hc)).
    unfold flipTranslation, recalculateIfNode.
    destruct horizontal; simpl;
      match goal with
      | |- (if isNodeComponentInstance ?a then _ else _)
           = (if isNodeComponentInstance ?b then _ else _) =>
          replace a with b; [reflexivity|]
      end; do 2 f_equal; ring.
Qed.

End FlipProperties.

(** C4, counterexample: in the document of two squares the pivot is (6, 11)
    and the centre of line 1 is (1, 1); flipping with [horizontal = true]
    moves line 1 by (0, 20), not along the x-axis by (10, 0) or
    (-10, 0). *)
Lemma flipSelection_not_as_worded :
  ~ flipsWith flipTranslationAsWorded true (twoSquares true)
  /\ ~ flipsWith flipTranslationAsWordedTo true (twoSquares true).
Proof.
  split; intros (pivot & st' & Hpivot & Hflip & Hlines & _);
    specialize (Hlines 1%positive ltac:(simpl; left));
    vm_compute in Hpivot; injection Hpivot as <-;
    vm_compute in Hflip; injection Hflip as <-;
    apply (f_equal outlineCalls) in Hlines;
    vm_compute in Hlines; discriminate Hlines.
Qed.

(** C4, amended, on the document of two squares. *)
Lemma flipSelection_translation_witness :
  flipsWith flipTranslation true (twoSquares true).
Proof.
  apply flipSelection_translation.
  - reflexivity.
  - repeat split.
    + apply NoDup_singleton.
    + apply NoDup_singleton.
    + intros i Hi Hc. simpl in Hi, Hc.
      apply list_elem_of_singleton in Hi, Hc. congruence.
Defined.

(** C5 on the document of two squares with nothing selected. *)
Lemma moveSelectionTo_empty_throws_witness :
  SelectionController.hasSelection (twoSquares false) = false
  /\ SelectionController.moveSelectionTo (Point.mk (num 3) (num 4)) (twoSquares false)
     = Throw TypeError.
Proof.
  split; [reflexivity|].
  apply moveSelectionTo_empty_throws. reflexivity.
Defined.

(** ** Properties of [ComponentSymbol] *)

Section ComponentSymbolProperties.
Import ComponentSymbol.
Context `{Units}.

(** C6.  When both coordinates of a parsed anchor are numbers, its point is
    (mid.x + x, mid.y - y). *)
Theorem parseAnchor_point (mid : Point.t) (anchorElement : Element)
    (ax ay : Number) :
  x (parseAnchor mid anchorElement) = VNumber ax ->
  y (parseAnchor mid anchorElement) = VNumber ay ->
  point (parseAnchor mid anchorElement)
  = Point.mk (Point.x mid + ax) (Point.y mid - ay).
Proof.
  unfold parseAnchor; cbn [x y point]. intros -> ->. reflexivity.
Qed.

(** Text that matches the number pattern becomes a number, so the anchors
    C6 speaks of are those whose attributes are absent or plain decimals. *)
Lemma parseCoordinate_number (attr : option string) :
  match attr with
  | None => parseCoordinate attr = VNumber 0
  | Some s => numberRegEx_test s = true ->
              parseCoordinate attr = VNumber (parseFloat s)
  end.
Proof. destruct attr as [s|]; [|reflexivity]. simpl. now intros ->. Qed.

(** C7, amended.  Construction from a symbol element throws the
    missing-metadata error exactly when the element lacks metadata in the
    sense of [lacksMetadata]; otherwise it succeeds, with the tikz name of
    the metadata and with the display name of the metadata or, if that is
    absent, the tikz name. *)
Theorem new_throws_iff_lacksMetadata (symbolElement : Element) :
  match new symbolElement None with
  | Throw e => e = missingMetadata /\ lacksMetadata symbolElement = true
  | Ok s =>
      lacksMetadata symbolElement = false
      /\ metadataAttribute "tikzName" symbolElement = Some (symbolTikzName s)
      /\ symbolDisplayName s
         = default (symbolTikzName s) (metadataAttribute "displayName" symbolElement)
  end.
Proof.
  unfold new, getBaseInformation, lacksMetadata, metadataAttribute;
    cbn [svgMetadataElement displayName tikzName].
  destruct (List.find isSVGMetadataElement (children symbolElement)) as [md|];
    [|now split].
  destruct (getNamedTag md "componentinformation" METADATA_NAMESPACE_URI) as [ci|];
    [|now split].
  destruct (getAttribute "tikzName" ci) as [tn|] eqn:Htn;
    destruct (getAttribute "displayName" ci) as [dn|] eqn:Hdn;
    unfold truthy; repeat case_bool_decide; simpl;
    repeat split; congruence.
Qed.

End ComponentSymbolProperties.

(** C6 on the scenario: anchor G at x = 2, y = 3 of a symbol with mid
    (10, 10) lies at (12, 7). *)
Lemma parseAnchor_point_witness :
  let mid := Point.mk (num 10) (num 10) in
  let anchor := ComponentSymbol.parseAnchor (H := plainUnits) mid pinG in
  ComponentSymbol.name anchor = Some "G"
  /\ ComponentSymbol.x anchor = ComponentSymbol.VNumber (num 2)
  /\ ComponentSymbol.y anchor = ComponentSymbol.VNumber (num 3)
  /\ ComponentSymbol.point anchor = Point.mk (num 12) (num 7).
Proof.
  cbv zeta.
  assert (ComponentSymbol.x
            (ComponentSymbol.parseAnchor (H := plainUnits)
               (Point.mk (num 10) (num 10)) pinG)
          = ComponentSymbol.VNumber (num 2)) as Hx by reflexivity.
  assert (ComponentSymbol.y
            (ComponentSymbol.parseAnchor (H := plainUnits)
               (Point.mk (num 10) (num 10)) pinG)
          = ComponentSymbol.VNumber (num 3)) as Hy by reflexivity.
  split; [reflexivity|]. split; [exact Hx|]. split; [exact Hy|].
  rewrite (parseAnchor_point (H := plainUnits) _ _ _ _ Hx Hy).
  now apply Point_mk_canon.
Defined.

(** C7, counterexample: the resistor has no display name, and construction
    succeeds with the tikz name in its place. *)
Lemma throwsExactlyWhenNameAbsent_fails :
  ~ throwsExactlyWhenNameAbsent (H := plainUnits) resistorSymbol.
Proof.
  intros [Hthrow _].
  assert (nameAbsent resistorSymbol) as Habsent by (left; reflexivity).
  specialize (Hthrow Habsent).
  assert (exists s, ComponentSymbol.new (H := plainUnits) resistorSymbol None = Ok s)
    as [s Hs] by (eexists; reflexivity).
  rewrite Hs in Hthrow. discriminate Hthrow.
Qed.

(** ** More on [SnapPoint] *)

Section SnapPointMore.
Import SnapPoint.
Context `{Trig}.

Lemma sin_cos_zero (inDeg : bool) : sin_cos inDeg 0 = (0, 1).
Proof.
  unfold sin_cos.
  replace (if inDeg then 0 / num 90 else 0 * num 180 / Math_PI) with (num 0)
    by (destruct inDeg; apply Qc_is_canon; reflexivity).
  rewrite isInteger_num, normalize_quadrant_num. reflexivity.
Qed.

(** X3.  A snap point constructed without an angle sits at mid + offset, in
    degree mode and in radian mode, with the mid point taken from the
    argument or else from the instance; with no mid point from either the
    constructor throws a [TypeError]. *)
Theorem new_places_at_mid_plus_offset (inst : option Owner) (name : option string)
    (mid0 : option PointAlike) (rel : PointAlike) (inDeg : option bool) :
  match (match mid0 with
         | Some m => Some m
         | None => match inst with Some o => mid o | None => None end
         end) with
  | Some m =>
      exists sp, new inst name mid0 rel None inDeg = Ok sp
        /\ position sp = Point.plus (as_point rel) (as_point m)
        /\ midPoint sp = m /\ angle sp = 0 /\ changeListeners sp = []
        /\ instance sp = inst /\ anchorName sp = name
  | None => new inst name mid0 rel None inDeg = Throw TypeError
  end.
Proof.
  unfold new.
  assert (forall m d, exists sp,
            Ok (fst (recalculate (Some m) (Some 0) (mk inst name m rel 0 d [] 0 0)))
            = Ok sp
            /\ position sp = Point.plus (as_point rel) (as_point m)
            /\ midPoint sp = m /\ angle sp = 0 /\ changeListeners sp = []
            /\ instance sp = inst /\ anchorName sp = name) as Hok.
  { intros m d. eexists. split; [reflexivity|].
    rewrite position_recalculate. cbn [inDegree]. rewrite sin_cos_zero.
    unfold recalculate. cbn [inDegree]. rewrite sin_cos_zero. cbn.
    split; [|auto].
    unfold rotate_with, Point.plus, offset, as_point; cbn. f_equal; ring. }
  destruct mid0 as [m|]; cbn; [apply Hok|].
  destruct inst as [o|]; cbn; [|reflexivity].
  destruct (mid o) as [m|]; [apply Hok | reflexivity].
Qed.

(** X4.  Once a snap point was recalculated, [recalculate()] without
    arguments changes nothing: state and position stay, and every listener
    is told the current position as old and new position. *)
Theorem recalculate_again_is_stable (newMid : option PointAlike)
    (newAngle : option Number) (sp : t) :
  let sp1 := fst (recalculate newMid newAngle sp) in
  recalculate None None sp1
  = (sp1, map (fun l => Build_Notification l (position sp1) (x sp1) (y sp1) false)
              (changeListeners sp1)).
Proof.
  cbv zeta. unfold recalculate.
  destruct (sin_cos (inDegree sp) _) as [s c] eqn:Hsc. cbn.
  rewrite Hsc. reflexivity.
Qed.

Lemma notified_map (l : Listener) (ls : list Listener)
    (f : Listener -> Notification) :
  (forall l', listener (f l') = l') ->
  notified l (map f ls) = count_occ Nat.eq_dec ls l.
Proof.
  intros Hf. unfold notified. induction ls as [|l' ls IH]; [reflexivity|].
  cbn [map count_occ]. rewrite filter_cons, Hf.
  destruct (decide (l' = l)) as [->|Hne].
  - destruct (Nat.eq_dec l l); [|contradiction]. cbn. now rewrite IH.
  - destruct (Nat.eq_dec l' l); [contradiction|]. exact IH.
Qed.

Lemma count_occ_remove_first (l l' : Listener) (ls : list Listener) :
  count_occ Nat.eq_dec (remove_first l ls) l'
  = if decide (l = l') then Nat.pred (count_occ Nat.eq_dec ls l')
    else count_occ Nat.eq_dec ls l'.
Proof.
  induction ls as [|a ls IH]; cbn.
  - now destruct (decide (l = l')).
  - destruct (Nat.eqb_spec l a) as [->|Hla].
    + destruct (decide (a = l')) as [->|Hne].
      * destruct (Nat.eq_dec l' l'); [reflexivity|contradiction].
      * destruct (Nat.eq_dec a l'); [contradiction|reflexivity].
    + cbn. destruct (Nat.eq_dec a l') as [->|Hal].
      * rewrite IH. destruct (decide (l = l')); [contradiction|reflexivity].
      * exact IH.
Qed.

(** X5.  [removeChangeListener] takes away one registration of the listener:
    afterwards a [recalculate] notifies that listener once less than it
    would have (a listener registered twice is still notified once, one that
    was not registered is unaffected), and every other listener as often as
    before. *)
Theorem removeChangeListener_one_registration (l l' : Listener)
    (newMid : option PointAlike) (newAngle : option Number) (sp : t) :
  notified l' (snd (recalculate newMid newAngle (removeChangeListener l sp)))
  = if decide (l = l')
    then Nat.pred (notified l' (snd (recalculate newMid newAngle sp)))
    else notified l' (snd (recalculate newMid newAngle sp)).
Proof.
  unfold recalculate. cbn [inDegree removeChangeListener changeListeners].
  destruct (sin_cos (inDegree sp) _) as [s c]. cbn [snd].
  rewrite !notified_map by reflexivity. apply count_occ_remove_first.
Qed.

(** X6.  [addChangeListener] registers at the end: the new listener is
    notified after all earlier ones, and once more than before. *)
Theorem addChangeListener_notified_last (l : Listener)
    (newMid : option PointAlike) (newAngle : option Number) (sp : t) :
  map listener (snd (recalculate newMid newAngle (addChangeListener l sp)))
  = map listener (snd (recalculate newMid newAngle sp)) ++ [l]
  /\ map listener (snd (removeInstance (addChangeListener l sp)))
     = map listener (snd (removeInstance sp)) ++ [l].
Proof.
  assert (forall (f : Listener -> Notification) (ls : list Listener),
            (forall l', listener (f l') = l') -> map listener (map f ls) = ls)
    as Hmap.
  { intros f ls Hf. induction ls as [|a ls IH]; cbn; [reflexivity|].
    now rewrite Hf, IH. }
  unfold recalculate, removeInstance.
  cbn [inDegree addChangeListener changeListeners].
  destruct (sin_cos (inDegree sp) _) as [s c]. cbn [snd].
  split; now rewrite !Hmap by reflexivity.
Qed.

Context `{PointFormat}.

(** X7.  After [removeInstance] the point is written as a coordinate, never
    as [node.anchor], also after later recalculations. *)
Theorem toTikzString_after_removeInstance (newMid : option PointAlike)
    (newAngle : option Number) (sp : t) :
  toTikzString (fst (removeInstance sp)) = Point_toTikzString (position sp)
  /\ let sp' := fst (recalculate newMid newAngle (fst (removeInstance sp))) in
     toTikzString sp' = Point_toTikzString (position sp').
Proof.
  split; [reflexivity|]. cbv zeta.
  destruct (recalculate_keeps newMid newAngle (fst (removeInstance sp)))
    as (_ & _ & _ & Hinst & _).
  unfold toTikzString. rewrite Hinst. reflexivity.
Qed.

(** X8.  A point with a named owner and a named anchor is written as
    [node.anchor], wherever it lies. *)
Theorem toTikzString_named (sp : t) (o : Owner) (n a : string) :
  instance sp = Some o -> nodeName o = Some n -> anchorName sp = Some a ->
  n <> ""%string -> a <> ""%string ->
  toTikzString sp = (n ++ "." ++ a)%string.
Proof.
  intros Hi Hn Ha Hne Hae. unfold toTikzString. rewrite Hi, Hn, Ha.
  unfold nonEmptyString. now rewrite !bool_decide_eq_false_2 by assumption.
Qed.

End SnapPointMore.

(** X1 at a concrete point: offset (3, 4), mid (10, 10), one quarter turn
    in degree mode. *)
Lemma recalculate_degree_quadrant_witness :
  SnapPoint.inDegree (offsetThreeFour true) = true
  /\ SnapPoint.position
       (fst (SnapPoint.recalculate (H := series_trig)
               (Some (SnapPoint.PObj (num 10) (num 10))) (Some (num (90 * 1)))
               (offsetThreeFour true)))
     = Point.plus (rotate_quarter_turns 1 (offset (offsetThreeFour true)))
                  (as_point (SnapPoint.PObj (num 10) (num 10))).
Proof.
  split; [reflexivity|].
  apply (recalculate_degree_quadrant (H := series_trig)). reflexivity.
Defined.

(** X8 on the anchor G of the node R1. *)
Lemma toTikzString_named_witness :
  SnapPoint.toTikzString (H := fixedFormat) anchorGOfR1 = "R1.G"%string.
Proof.
  apply (toTikzString_named (H0 := fixedFormat) anchorGOfR1 nodeR1 "R1" "G");
    [reflexivity | reflexivity | reflexivity | discriminate | discriminate].
Defined.

(** ** More on the line router *)

Section LineDrawerMore.
Import LineDrawer.

Lemma ltb_gtb_exclusive (a b : Number) : ltb a b && gtb a b = false.
Proof.
  unfold ltb, gtb. do 2 case_bool_decide; try reflexivity.
  exfalso. eapply Qclt_not_le; [eassumption|]. now apply Qclt_le_weak.
Qed.

Lemma eqb_point (p q : Point.t) :
  eqb (Point.x p) (Point.x q) && eqb (Point.y p) (Point.y q) = true <-> p = q.
Proof.
  unfold eqb. destruct p as [a b], q as [c d]; cbn.
  rewrite andb_true_iff, !bool_decide_eq_true. split.
  - now intros [-> ->].
  - now intros [= -> ->].
Qed.

Lemma adjacentDistinct_snoc (ps : list Point.t) (d p : Point.t) :
  adjacentDistinct ps -> List.last ps d <> p -> ps <> [] ->
  adjacentDistinct (ps ++ [p]).
Proof.
  induction ps as [|a ps IH]; [congruence|]. intros Had Hlast _.
  destruct ps as [|b ps].
  - cbn in *. auto.
  - cbn [app adjacentDistinct] in *. destruct Had as [Hab Had].
    split; [assumption|]. apply IH; [assumption| |discriminate].
    exact Hlast.
Qed.

Lemma last_default (a d d' : Point.t) (ps : list Point.t) :
  List.last (a :: ps) d = List.last (a :: ps) d'.
Proof.
  revert a. induction ps as [|b ps IH]; intros a; [reflexivity|].
  exact (IH b).
Qed.

Lemma fixedPoints_pushPoint (hf : bool) (p : Point.t) (l : Line) :
  fixedPoints (pushPoint hf p l) = fixedPoints l ++ [p].
Proof. unfold fixedPoints; cbn. now rewrite List.map_app. Qed.

Lemma last_snoc (ps : list Point.t) (d p : Point.t) : List.last (ps ++ [p]) d = p.
Proof. apply List.last_last. Qed.

Lemma consistent_activate_init : consistent (activate init).
Proof. repeat split; cbn; auto. Qed.

Lemma consistent_onCancel (st : t) : consistent st -> consistent (onCancel st).
Proof.
  intros (_ & _ & Hadded). repeat split; cbn; auto.
Qed.

Lemma consistent_switch (st : t) :
  consistent st -> consistent (activate (deactivate st)).
Proof.
  intros (_ & _ & Hadded). repeat split; cbn; auto.
Qed.

Lemma consistent_moveListener (p : Point.t) (st st' : t) :
  consistent st -> moveListener p st = Ok st' -> consistent st'.
Proof.
  unfold consistent, moveListener. intros (Hline & Hdir & Hadded).
  destruct (newLine st) as [l|], (lastPoint st) as [lp|]; try contradiction;
    intros [= <-]; cbn; auto.
Qed.

Lemma consistent_clickListener (p : Point.t) (st st' : t) :
  consistent st -> clickListener p st = Ok st' -> consistent st'.
Proof.
  unfold consistent, clickListener. intros (Hline & Hdir & Hadded).
  destruct (newLine st) as [l|] eqn:Hl, (lastPoint st) as [lp|] eqn:Hlp;
    try contradiction.
  - destruct (eqb (Point.x lp) (Point.x p) && eqb (Point.y lp) (Point.y p))
      eqn:Hsame.
    + intros [= <-]. rewrite Hl, Hlp. auto.
    + assert (lp <> p) as Hne.
      { intros E%eqb_point. congruence. }
      clear Hsame. rename Hne into Hsame.
      intros [= <-].
      cbn [newLine lastPoint fabVisible lastLineDirection addedLines].
      destruct Hline as (Hlast & Had & _).
      split; [|split; [|assumption]].
      * rewrite fixedPoints_pushPoint. split; [apply last_snoc|]. split.
        -- apply (adjacentDistinct_snoc _ lp);
             [assumption | now rewrite Hlast | discriminate].
        -- intros _. cbn. now destruct (corners l).
      * unfold flagCount.
        pose proof (ltb_gtb_exclusive (Point.y p) (Point.y lp)) as Hy.
        pose proof (ltb_gtb_exclusive (Point.x p) (Point.x lp)) as Hx.
        destruct (_ && negb _); cbn;
          [destruct (ltb (Point.y p) (Point.y lp)), (gtb (Point.y p) (Point.y lp))
          |destruct (ltb (Point.x p) (Point.x lp)), (gtb (Point.x p) (Point.x lp))];
          cbn in *; try discriminate; lia.
  - intros [= <-]. cbn. repeat split; auto. intros Hfab.
    rewrite Hline in Hfab. discriminate Hfab.
Qed.

Lemma consistent_lineEnd (st st' : t) :
  consistent st -> fabVisible st = true -> lineEnd st = Ok st' -> consistent st'.
Proof.
  unfold consistent, lineEnd. intros (Hline & Hdir & Hadded) Hfab.
  destruct (newLine st) as [l|], (lastPoint st) as [lp|]; try contradiction;
    [|congruence].
  intros [= <-]. cbn. repeat split; auto.
  apply Forall_app. split; [assumption|]. constructor; [|constructor].
  destruct Hline as (_ & Had & Hcorners). repeat split; cbn; auto.
Qed.

Lemma reachable_consistent (st : t) : Reachable st -> consistent st.
Proof.
  induction 1;
    eauto using consistent_activate_init, consistent_clickListener,
      consistent_moveListener, consistent_lineEnd, consistent_onCancel,
      consistent_switch.
Qed.

(** X9.  In a session no listener throws: a click and a move are always
    answered, and so is the confirmation while the action button is
    visible. *)
Theorem reachable_never_throws (st : t) (p : Point.t) :
  Reachable st ->
  (exists st', clickListener p st = Ok st')
  /\ (exists st', moveListener p st = Ok st')
  /\ (fabVisible st = true -> exists st', lineEnd st = Ok st').
Proof.
  intros Hr. destruct (reachable_consistent st Hr) as (Hline & _).
  unfold clickListener, moveListener, lineEnd.
  destruct (newLine st) as [l|], (lastPoint st) as [lp|]; try contradiction.
  - repeat split; eauto. destruct (_ && _); eauto.
  - repeat split; eauto. intros Hfab. congruence.
Qed.

(** X10.  While a line is drawn, [#lastPoint] is the last point of the line
    and no two consecutive points of the line coincide: a click never adds
    a segment of length zero. *)
Theorem reachable_line_has_no_empty_segment (st : t) (l : Line) :
  Reachable st -> newLine st = Some l ->
  lastPoint st = Some (List.last (fixedPoints l) (startPoint l))
  /\ adjacentDistinct (fixedPoints l).
Proof.
  intros Hr Hl. destruct (reachable_consistent st Hr) as (Hline & _).
  rewrite Hl in Hline. destruct (lastPoint st) as [lp|]; [|contradiction].
  destruct Hline as (Hlast & Had & _). split; [|assumption].
  f_equal. rewrite <- Hlast at 1. apply last_default.
Qed.

(** X11.  The recorded direction of the last segment has at most one of
    its four flags set. *)
Theorem reachable_single_direction (st : t) :
  Reachable st -> (flagCount (lastLineDirection st) <= 1)%nat.
Proof. intros Hr. now destruct (reachable_consistent st Hr) as (_ & Hdir & _). Qed.

(** X12.  Every line handed to the main controller has at least one
    segment, no segment of length zero and no provisional segment left. *)
Theorem reachable_added_lines_finished (st : t) :
  Reachable st -> Forall finished (addedLines st).
Proof. intros Hr. now destruct (reachable_consistent st Hr) as (_ & _ & Hadd). Qed.

Lemma differs_same (b : bool) : differs (Some b) b = false.
Proof. now destruct b. Qed.

(** X13.  A second move to the same cursor position changes nothing. *)
Theorem moveListener_same_point_again (p : Point.t) (st st1 : t) :
  moveListener p st = Ok st1 -> moveListener p st1 = Ok st1.
Proof.
  unfold moveListener.
  destruct (newLine st) as [l|] eqn:Hl.
  - destruct (lastPoint st) as [lp|] eqn:Hlp; [|discriminate].
    intros [= <-]. cbn -[differs ltb gtb]. rewrite !differs_same.
    destruct (left (lastLineDirection st) && _ || _);
      [reflexivity|].
    destruct (down (lastLineDirection st) && _ || _); reflexivity.
  - intros [= <-]. reflexivity.
Qed.

(** X14.  Every new line decides its first bend afresh: after a
    cancellation or a confirmation, the first click and the first move
    settle the direction by comparing the deltas from the clicked point,
    whatever was drawn before. *)
Theorem first_move_after_reset (st : t) (start cursor : Point.t) :
  let fresh (st0 : t) :=
    exists st', run [Click start; Move cursor] st0 = Ok st'
      /\ horizontalFirst st'
         = gtb (Point.x cursor - Point.x start) (Point.y cursor - Point.y start)
      /\ lastPoint st' = Some start in
  fresh (onCancel st)
  /\ fresh (activate st)
  /\ match lineEnd st with Ok st0 => fresh st0 | Throw _ => True end.
Proof.
  cbv zeta. split; [|split].
  - eexists. split; [reflexivity|]. split; reflexivity.
  - eexists. split; [reflexivity|]. split; reflexivity.
  - unfold lineEnd. destruct (newLine st); [|exact I].
    eexists. split; [reflexivity|]. split; reflexivity.
Qed.

End LineDrawerMore.

(** The drawer after the segment to the right is reached by a click at
    (0, 0), a move to (5, 0) and a click there. *)
Lemma after_segment_right_reachable : Reachable after_segment_right.
Proof.
  eapply (reachable_click (Point.mk (num 5) 0));
    [eapply (reachable_move (Point.mk (num 5) 0));
       [eapply (reachable_click (Point.mk 0 0));
          [apply reachable_activate | reflexivity]
       | reflexivity]
    | reflexivity].
Qed.

(** X9 after the segment to the right, for an event at (2, 7). *)
Lemma reachable_never_throws_witness :
  (exists st', LineDrawer.clickListener (Point.mk (num 2) (num 7)) after_segment_right
               = Ok st')
  /\ (exists st', LineDrawer.moveListener (Point.mk (num 2) (num 7)) after_segment_right
                  = Ok st')
  /\ (LineDrawer.fabVisible after_segment_right = true ->
      exists st', LineDrawer.lineEnd after_segment_right = Ok st').
Proof.
  apply (reachable_never_throws after_segment_right (Point.mk (num 2) (num 7))).
  apply after_segment_right_reachable.
Defined.

(** X10 after the segment to the right. *)
Lemma reachable_line_has_no_empty_segment_witness :
  let l := {| LineDrawer.startPoint := Point.mk 0 0;
              LineDrawer.corners := [(true, Point.mk (num 5) 0)];
              LineDrawer.mousePoint := Some (true, Point.mk (num 5) 0) |} in
  LineDrawer.lastPoint after_segment_right
  = Some (List.last (fixedPoints l) (LineDrawer.startPoint l))
  /\ adjacentDistinct (fixedPoints l).
Proof.
  cbv zeta.
  apply (reachable_line_has_no_empty_segment after_segment_right);
    [apply after_segment_right_reachable | reflexivity].
Defined.

(** X11 after the segment to the right. *)
Lemma reachable_single_direction_witness :
  (flagCount (LineDrawer.lastLineDirection after_segment_right) <= 1)%nat.
Proof.
  apply (reachable_single_direction after_segment_right).
  apply after_segment_right_reachable.
Defined.

(** X12 after the segment to the right was confirmed. *)
Lemma reachable_added_lines_finished_witness :
  exists st,
    LineDrawer.lineEnd after_segment_right = Ok st
    /\ LineDrawer.addedLines st <> []
    /\ Forall finished (LineDrawer.addedLines st).
Proof.
  eexists. split; [reflexivity|]. split; [discriminate|].
  apply reachable_added_lines_finished.
  eapply reachable_ok;
    [apply after_segment_right_reachable | reflexivity | reflexivity].
Defined.

(** X13 after the segment to the right, for the cursor at (2, 7). *)
Lemma moveListener_same_point_again_witness :
  exists st1,
    LineDrawer.moveListener (Point.mk (num 2) (num 7)) after_segment_right = Ok st1
    /\ LineDrawer.moveListener (Point.mk (num 2) (num 7)) st1 = Ok st1.
Proof.
  eexists. split; [reflexivity|].
  apply (moveListener_same_point_again (Point.mk (num 2) (num 7)) after_segment_right).
  reflexivity.
Defined.

(** ** More on the selection engine *)

#[local] Set Warnings "-clear-no-such-hyp".

(** Turns a goal on the order of [Qc] into one on [Q] and solves it by
    linear arithmetic. *)
Ltac qc_order :=
  unfold Qcle, Qclt, Qcminus, Qcplus, Qcopp, Q2Qc in *; cbn [this] in *;
  rewrite ?Qred_correct in *; lra.

Section BoxFacts.

Lemma ltb_true (a b : Number) : ltb a b = true <-> a < b.
Proof. unfold ltb. apply bool_decide_eq_true. Qed.

Lemma ltb_false (a b : Number) : ltb a b = false <-> b <= a.
Proof.
  unfold ltb. rewrite bool_decide_eq_false. split.
  - apply Qcnot_lt_le.
  - intros Hle Hlt. exact (Qclt_not_le _ _ Hlt Hle).
Qed.

Lemma min_le (a b : Number) : Box.min a b <= a /\ Box.min a b <= b.
Proof.
  unfold Box.min. destruct (ltb a b) eqn:E.
  - apply ltb_true in E. split; qc_order.
  - apply ltb_false in E. split; qc_order.
Qed.

Lemma max_ge (a b : Number) : a <= Box.max a b /\ b <= Box.max a b.
Proof.
  unfold Box.max. destruct (ltb a b) eqn:E.
  - apply ltb_true in E. split; qc_order.
  - apply ltb_false in E. split; qc_order.
Qed.

Lemma encloses_refl (b : Box.t) : encloses b b.
Proof. unfold encloses. repeat split; qc_order. Qed.

Lemma encloses_trans (a b c : Box.t) : encloses a b -> encloses b c -> encloses a c.
Proof. unfold encloses. intros (?&?&?&?) (?&?&?&?). repeat split; qc_order. Qed.

Lemma merge_encloses (a b : Box.t) :
  encloses (Box.merge a b) a /\ encloses (Box.merge a b) b.
Proof.
  unfold encloses, Box.merge; cbn.
  destruct (min_le (Box.x a) (Box.x b)), (min_le (Box.y a) (Box.y b)).
  destruct (max_ge (Box.x a + Box.width a) (Box.x b + Box.width b)).
  destruct (max_ge (Box.y a + Box.height a) (Box.y b + Box.height b)).
  generalize dependent (Box.max (Box.x a + Box.width a) (Box.x b + Box.width b)).
  generalize dependent (Box.max (Box.y a + Box.height a) (Box.y b + Box.height b)).
  generalize dependent (Box.min (Box.x a) (Box.x b)).
  generalize dependent (Box.min (Box.y a) (Box.y b)).
  intros. repeat split; try assumption; qc_order.
Qed.

End BoxFacts.

Section SelectionMore.
Import SelectionController.
Context {O : Type} `{CanvasObject O}.

(** *** Arrays of references *)

Lemma elem_of_removeFirst (i j : oid) (sel : list oid) :
  NoDup sel -> j ∈ removeFirst i sel <-> j ∈ sel /\ j <> i.
Proof.
  induction sel as [|a sel IH]; intros Hnd; cbn.
  - split; [intros []%elem_of_nil | intros [[]%elem_of_nil _]].
  - apply NoDup_cons in Hnd as [Ha Hnd]. case_bool_decide as Hia.
    + subst a. rewrite elem_of_cons. split.
      * intros Hj. split; [now right|]. intros ->. contradiction.
      * intros [[->|Hj] Hne]; [contradiction|assumption].
    + rewrite !elem_of_cons, (IH Hnd). split.
      * intros [->|[Hj Hne]]; [split; [now left|congruence] | split; [now right|assumption]].
      * intros [[->|Hj] Hne]; [now left | right; now split].
Qed.

Lemma NoDup_removeFirst (i : oid) (sel : list oid) :
  NoDup sel -> NoDup (removeFirst i sel).
Proof.
  induction sel as [|a sel IH]; intros Hnd; cbn; [constructor|].
  apply NoDup_cons in Hnd as [Ha Hnd]. case_bool_decide; [assumption|].
  apply NoDup_cons. split; [|now apply IH].
  rewrite (elem_of_removeFirst _ _ _ Hnd). now intros [? _].
Qed.

Lemma removeFirst_absent (i : oid) (sel : list oid) :
  i ∉ sel -> removeFirst i sel = sel.
Proof.
  induction sel as [|a sel IH]; intros Hi; cbn; [reflexivity|].
  apply not_elem_of_cons in Hi as [Hia Hi].
  rewrite bool_decide_eq_false_2 by assumption. now rewrite IH.
Qed.

Lemma NoDup_snoc (i : oid) (sel : list oid) :
  NoDup sel -> i ∉ sel -> NoDup (sel ++ [i]).
Proof.
  intros Hnd Hi. apply NoDup_app. split; [assumption|]. split.
  - intros x Hx Hxi%list_elem_of_singleton. now subst.
  - apply NoDup_singleton.
Qed.

Lemma includes_true (ids : list oid) (i : oid) : includes ids i = true <-> i ∈ ids.
Proof. apply bool_decide_eq_true. Qed.

Lemma includes_false (ids : list oid) (i : oid) : includes ids i = false <-> i ∉ ids.
Proof. apply bool_decide_eq_false. Qed.

(** *** Committing the marquee *)

Lemma commitLoop_cons (mode : SelectionMode) (box : Box.t) (h : oid -> O)
    (i : oid) (ids sel : list oid) :
  commitLoop mode box h (i :: ids) sel
  = commitLoop mode box h ids (commitLoop mode box h [i] sel).
Proof. reflexivity. Qed.

(** One round of the loop in [#updateSelection]. *)
Lemma commitLoop_one (mode : SelectionMode) (box : Box.t) (h : oid -> O)
    (i : oid) (sel : list oid) :
  NoDup sel ->
  NoDup (commitLoop mode box h [i] sel)
  /\ forall j, j ∈ commitLoop mode box h [i] sel <-> committed mode h box [i] sel j.
Proof.
  intros Hnd. unfold committed, meets, commitLoop; cbn.
  destruct mode, (isInsideSelectionRectangle (h i) box) eqn:Hin;
    try (destruct (includes sel i) eqn:Hinc;
         [apply includes_true in Hinc | apply includes_false in Hinc]);
    (split; [auto using NoDup_removeFirst, NoDup_snoc|]); intros j;
    rewrite ?elem_of_app, ?(elem_of_removeFirst _ _ _ Hnd),
      ?list_elem_of_singleton;
    destruct (decide (j = i)) as [->|Hji]; rewrite ?Hin; naive_solver.
Qed.

Lemma commitLoop_spec (mode : SelectionMode) (box : Box.t) (h : oid -> O)
    (ids sel : list oid) :
  NoDup sel ->
  NoDup (commitLoop mode box h ids sel)
  /\ forall j, j ∈ commitLoop mode box h ids sel <-> committed mode h box ids sel j.
Proof.
  revert sel. induction ids as [|i ids IH]; intros sel Hnd.
  - split; [assumption|]. intros j. unfold committed; cbn.
    destruct mode; rewrite ?elem_of_nil; naive_solver.
  - rewrite commitLoop_cons.
    destruct (commitLoop_one mode box h i sel Hnd) as [Hnd1 H1].
    destruct (IH _ Hnd1) as [Hnd2 H2]. split; [assumption|].
    intros j. etrans; [apply H2|]. specialize (H1 j). clear H2 IH.
    unfold committed in *.
    destruct mode; rewrite ?elem_of_cons; rewrite ?list_elem_of_singleton in H1;
      destruct (decide (j = i)) as [->|Hji];
      destruct (decide (i ∈ ids)); naive_solver.
Qed.

Lemma committed_listed (mode : SelectionMode) (box : Box.t) (h : oid -> O)
    (ids sel : list oid) (i : oid) :
  NoDup sel -> i ∈ ids ->
  previewCond mode box (includes sel i) (h i)
  = includes (commitLoop mode box h ids sel) i.
Proof.
  intros Hnd Hi. destruct (commitLoop_spec mode box h ids sel Hnd) as [_ Hspec].
  specialize (Hspec i). unfold committed, meets in Hspec.
  apply eq_true_iff_eq. rewrite includes_true, Hspec. unfold previewCond.
  destruct mode;
    rewrite ?orb_true_iff, ?andb_true_iff, ?negb_true_iff, ?includes_true;
    destruct (isInsideSelectionRectangle (h i) box); naive_solver.
Qed.

Lemma commitLoop_fixed (mode : SelectionMode) (box : Box.t) (h : oid -> O)
    (ids sel : list oid) :
  (forall i, i ∈ ids -> commitLoop mode box h [i] sel = sel) ->
  commitLoop mode box h ids sel = sel.
Proof.
  induction ids as [|i ids IH]; intros Hfix; [reflexivity|].
  rewrite commitLoop_cons, Hfix by left. apply IH.
  intros j Hj. apply Hfix. now right.
Qed.

Lemma commitLoop_again (mode : SelectionMode) (box : Box.t) (h : oid -> O)
    (ids sel : list oid) :
  NoDup sel ->
  commitLoop mode box h ids (commitLoop mode box h ids sel)
  = commitLoop mode box h ids sel.
Proof.
  intros Hnd. destruct (commitLoop_spec mode box h ids sel Hnd) as [_ Hspec].
  apply commitLoop_fixed. intros i Hi.
  specialize (Hspec i). unfold committed, meets in Hspec.
  unfold commitLoop at 1; cbn.
  destruct mode, (isInsideSelectionRectangle (h i) box) eqn:Hin;
    try reflexivity;
    try (rewrite (proj2 (includes_true _ _)); [reflexivity | naive_solver]);
    apply removeFirst_absent; naive_solver.
Qed.

(** X15.  With nothing selected, [rotateSelection], [flipSelection] and
    [moveSelectionRel] return the controller as it is: no object is
    touched. *)
Theorem empty_selection_transforms_do_nothing (angleDeg : Number)
    (horizontal : bool) (delta : Point.t) (st : t O) :
  hasSelection st = false ->
  rotateSelection angleDeg st = Ok st
  /\ flipSelection horizontal st = Ok st
  /\ moveSelectionRel delta st = st.
Proof.
  intros Hsel. split; [|split].
  - now apply rotateSelection_empty.
  - now apply flipSelection_empty.
  - now apply moveSelectionRel_empty.
Qed.

Lemma privUpdateSelection_committed (st : t O) :
  NoDup (currentlySelectedComponents st) -> NoDup (currentlySelectedLines st) ->
  let st' := privUpdateSelection st in
  NoDup (currentlySelectedComponents st')
  /\ NoDup (currentlySelectedLines st')
  /\ (forall j, j ∈ currentlySelectedComponents st' <->
       committed (selectionMode st) (heap st) (selectionRectangle st)
         (instances st) (currentlySelectedComponents st) j)
  /\ (forall j, j ∈ currentlySelectedLines st' <->
       committed (selectionMode st) (heap st) (selectionRectangle st)
         (lines st) (currentlySelectedLines st) j)
  /\ heap st' = heap st.
Proof.
  intros Hc Hl. cbv zeta. unfold privUpdateSelection; cbn -[commitLoop].
  destruct (commitLoop_spec (selectionMode st) (selectionRectangle st) (heap st)
              (instances st) _ Hc) as [? ?].
  destruct (commitLoop_spec (selectionMode st) (selectionRectangle st) (heap st)
              (lines st) _ Hl) as [? ?].
  auto.
Qed.

(** X16.  Releasing the marquee, for a selection without repetitions: in
    mode RESET an object of the document is selected afterwards exactly if
    it meets the marquee; in mode ADD exactly if it was selected or meets
    the marquee; in mode SUB exactly if it was selected and does not meet
    the marquee.  The selection stays without repetitions and no object
    changes. *)
Theorem privUpdateSelection_selects (st : t O) :
  NoDup (currentlySelectedComponents st) -> NoDup (currentlySelectedLines st) ->
  let st' := privUpdateSelection st in
  NoDup (currentlySelectedComponents st')
  /\ NoDup (currentlySelectedLines st')
  /\ (forall j, j ∈ currentlySelectedComponents st' <->
       committed (selectionMode st) (heap st) (selectionRectangle st)
         (instances st) (currentlySelectedComponents st) j)
  /\ (forall j, j ∈ currentlySelectedLines st' <->
       committed (selectionMode st) (heap st) (selectionRectangle st)
         (lines st) (currentlySelectedLines st) j)
  /\ heap st' = heap st.
Proof. apply privUpdateSelection_committed. Qed.

(** X17.  For a selection without repetitions, releasing the same marquee
    a second time changes nothing. *)
Theorem privUpdateSelection_idempotent (st : t O) :
  NoDup (currentlySelectedComponents st) -> NoDup (currentlySelectedLines st) ->
  privUpdateSelection (privUpdateSelection st) = privUpdateSelection st.
Proof.
  intros Hc Hl. unfold privUpdateSelection; cbn -[commitLoop].
  now rewrite !commitLoop_again by assumption.
Qed.

(** *** The preview *)

Lemma previewLoop_absent (mode : SelectionMode) (box : Box.t)
    (sel ids : list oid) (h : oid -> O) (j : oid) :
  j ∉ ids -> previewLoop mode box sel ids h j = h j.
Proof.
  unfold previewLoop. revert h.
  induction ids as [|i ids IH]; intros h Hj; [reflexivity|].
  apply not_elem_of_cons in Hj as [Hji Hj]. cbn.
  rewrite (IH _ Hj). apply fn_lookup_alter_ne. congruence.
Qed.

Lemma previewLoop_listed (mode : SelectionMode) (box : Box.t)
    (sel ids : list oid) (h : oid -> O) (j : oid) :
  NoDup ids -> j ∈ ids ->
  previewLoop mode box sel ids h j
  = if previewCond mode box (includes sel j) (h j)
    then showBoundingBox (h j) else hideBoundingBox (h j).
Proof.
  revert h. induction ids as [|i ids IH]; intros h Hnd Hj.
  - now apply elem_of_nil in Hj.
  - apply NoDup_cons in Hnd as [Hi Hnd].
    change (previewLoop mode box sel (i :: ids) h)
      with (previewLoop mode box sel ids
              (alter (fun o => if previewCond mode box (includes sel i) o
                               then showBoundingBox o else hideBoundingBox o) i h)).
    apply elem_of_cons in Hj as [->|Hj].
    + rewrite previewLoop_absent by assumption. apply fn_lookup_alter.
    + rewrite (IH _ Hnd Hj).
      rewrite fn_lookup_alter_ne by (intros ->; contradiction). reflexivity.
Qed.

(** X18.  The preview shows what a release would select: while dragging, a
    component instance of the document gets its bounding box shown exactly
    if [#updateSelection] would have it selected, and hidden otherwise; the
    same holds for lines. *)
Theorem preview_shows_what_release_selects (st : t O) (i : oid) :
  NoDup (instances st) -> NoDup (lines st) ->
  NoDup (currentlySelectedComponents st) -> NoDup (currentlySelectedLines st) ->
  (i ∈ instances st -> i ∉ lines st ->
   heap (privShowSelection st) i
   = if isComponentSelected i (privUpdateSelection st)
     then showBoundingBox (heap st i) else hideBoundingBox (heap st i))
  /\ (i ∈ lines st -> i ∉ instances st ->
      heap (privShowSelection st) i
      = if isLineSelected i (privUpdateSelection st)
        then showBoundingBox (heap st i) else hideBoundingBox (heap st i)).
Proof.
  intros Hi Hl Hsc Hsl. unfold privShowSelection, isComponentSelected,
    isLineSelected, privUpdateSelection; cbn -[commitLoop previewLoop]. split.
  - intros Hin Hnl. rewrite previewLoop_absent by assumption.
    rewrite previewLoop_listed by assumption.
    now rewrite (committed_listed _ _ _ (instances st)) by assumption.
  - intros Hin Hni. rewrite previewLoop_listed by assumption.
    rewrite previewLoop_absent by assumption.
    now rewrite (committed_listed _ _ _ (lines st)) by assumption.
Qed.

(** *** The overall bounding box *)

Lemma mergeAll_encloses (h : oid -> O) (ids : list oid) (o : option Box.t)
    (b : Box.t) :
  mergeAll h ids o = Some b ->
  (forall b0, o = Some b0 -> encloses b b0)
  /\ (forall i, i ∈ ids -> encloses b (bbox (h i))).
Proof.
  revert o. induction ids as [|i ids IH]; intros o Hb.
  - cbn in Hb. subst o. split.
    + intros b0 [= ->]. apply encloses_refl.
    + intros i []%elem_of_nil.
  - rewrite mergeAll_cons in Hb. destruct (IH _ Hb) as [Hacc Hids].
    specialize (Hacc _ eq_refl). split.
    + intros b0 ->. eapply encloses_trans; [exact Hacc|].
      apply merge_encloses.
    + intros j [->|Hj]%elem_of_cons; [|now apply Hids].
      destruct o as [b0|]; [|exact Hacc].
      eapply encloses_trans; [exact Hacc|]. apply merge_encloses.
Qed.

(** X19.  The overall bounding box reaches around the bounding box of every
    selected line and component. *)
Theorem getOverallBoundingBox_encloses (st : t O) (b : Box.t) (i : oid) :
  getOverallBoundingBox st = Some b ->
  i ∈ currentlySelectedLines st \/ i ∈ currentlySelectedComponents st ->
  encloses b (bbox (heap st i)).
Proof.
  unfold getOverallBoundingBox. intros Hb Hi.
  destruct (mergeAll_encloses _ _ _ _ Hb) as [Hlines Hcomps].
  destruct Hi as [Hi|Hi]; [|now apply Hcomps].
  destruct (mergeAll (heap st) (currentlySelectedLines st) None) as [b0|] eqn:Hb0.
  - eapply encloses_trans; [apply (Hlines _ eq_refl)|].
    now apply (mergeAll_encloses _ _ _ _ Hb0).
  - destruct (currentlySelectedLines st) as [|l ls]; [now apply elem_of_nil in Hi|].
    rewrite mergeAll_cons in Hb0.
    destruct (mergeAll_Some (heap st) ls (bbox (heap st l))) as [b1 Hb1].
    congruence.
Qed.

(** *** Group transforms *)

(** X20.  The group transforms leave every object outside the selection as
    it is, and change nothing of the controller but objects. *)
Theorem transforms_keep_unselected (st : t O) (i : oid) (angleDeg : Number)
    (horizontal : bool) (p : Point.t) :
  i ∉ currentlySelectedLines st -> i ∉ currentlySelectedComponents st ->
  let untouched (r : result (t O)) :=
    match r with
    | Ok st' => heap st' i = heap st i /\ st' = withHeap (heap st') st
    | Throw _ => True
    end in
  untouched (rotateSelection angleDeg st)
  /\ untouched (flipSelection horizontal st)
  /\ untouched (Ok (moveSelectionRel p st))
  /\ untouched (moveSelectionTo p st).
Proof.
  intros Hl Hc. cbv zeta.
  assert (st = withHeap (heap st) st) as Hst by now destruct st.
  unfold rotateSelection, flipSelection, moveSelectionTo, moveSelectionRel.
  destruct (negb (hasSelection st));
    destruct (centerOf (getOverallBoundingBox st)) as [c|]; cbn;
    rewrite ?forEach_lookup_notin by assumption; auto.
Qed.

(** X21.  [rotateSelection] turns every selected line in place and moves it
    by the difference between its turned and its old centre, and turns
    every selected component in place and moves it to its turned anchor
    point, both turned about the centre of the overall bounding box. *)
Theorem rotateSelection_per_object (angleDeg : Number) (st : t O) :
  hasSelection st = true -> selectionIsSet st ->
  exists pivot st',
    centerOf (getOverallBoundingBox st) = Ok pivot
    /\ rotateSelection angleDeg st = Ok st'
    /\ (forall l, l ∈ currentlySelectedLines st ->
        heap st' l
        = moveRel (Point.minus (rotatePoint angleDeg pivot (boxCenter (heap st l)))
                               (boxCenter (heap st l)))
                  (rotate angleDeg (heap st l)))
    /\ (forall c, c ∈ currentlySelectedComponents st ->
        heap st' c
        = recalculateIfNode
            (moveTo (rotatePoint angleDeg pivot (getAnchorPoint (heap st c)))
                    (rotate angleDeg (heap st c)))).
Proof.
  intros Hsel (Hlines & Hcomps & Hdisj).
  destruct (getOverallBoundingBox_Some st Hsel) as [b Hb].
  exists (Point.mk (Box.cx b) (Box.cy b)).
  unfold rotateSelection. rewrite Hsel, Hb. cbn.
  eexists. split; [reflexivity|]. split; [reflexivity|]. cbn. split.
  - intros l Hl.
    rewrite forEach_lookup_notin by auto.
    rewrite forEach_lookup by assumption.
    now rewrite bool_decide_eq_true_2 by assumption.
  - intros c Hc.
    rewrite forEach_lookup by assumption.
    rewrite bool_decide_eq_true_2 by assumption.
    now rewrite forEach_lookup_notin by (intros Hl; exact (Hdisj c Hl Hc)).
Qed.

(** X22.  With something selected, [moveSelectionTo] does not throw: it
    moves every selected object once, by the difference between the target
    and the centre of the overall bounding box. *)
Theorem moveSelectionTo_moves_each_once (position : Point.t) (st : t O) :
  hasSelection st = true -> selectionIsSet st ->
  exists pivot st',
    centerOf (getOverallBoundingBox st) = Ok pivot
    /\ moveSelectionTo position st = Ok st'
    /\ (forall i, i ∈ currentlySelectedLines st \/ i ∈ currentlySelectedComponents st ->
        heap st' i = moveRel (Point.minus position pivot) (heap st i)).
Proof.
  intros Hsel (Hlines & Hcomps & Hdisj).
  destruct (getOverallBoundingBox_Some st Hsel) as [b Hb].
  exists (Point.mk (Box.cx b) (Box.cy b)).
  unfold moveSelectionTo, moveSelectionRel. rewrite Hb. cbn.
  eexists. split; [reflexivity|]. split; [reflexivity|]. cbn.
  intros i [Hl|Hc].
  - rewrite forEach_lookup by assumption.
    rewrite bool_decide_eq_true_2 by assumption.
    now rewrite forEach_lookup_notin by auto.
  - rewrite forEach_lookup_notin by (intros Hl; exact (Hdisj i Hl Hc)).
    rewrite forEach_lookup by assumption.
    now rewrite bool_decide_eq_true_2 by assumption.
Qed.

(** *** The marquee rectangle *)

(** X23.  While dragging, a pointer move gives the marquee the absolute
    values of the two differences between the pointer and the press point
    as width and height, so neither is negative.  Its corner is never to
    the right of or below the press point, and along an axis on which the
    pointer has not moved back it is the press point itself. *)
Theorem mousemove_marquee_not_negative (pt : Point.t) (st : t O) :
  currentlyDragging st = true ->
  let start := selectionStartPosition st in
  let r := selectionRectangle (mousemove pt st) in
  Box.width r = Math_abs (Point.x pt - Point.x start)
  /\ Box.height r = Math_abs (Point.y pt - Point.y start)
  /\ 0 <= Box.width r /\ 0 <= Box.height r
  /\ Box.x r <= Point.x start /\ Box.y r <= Point.y start
  /\ (Point.x start <= Point.x pt -> Box.x r = Point.x start)
  /\ (Point.y start <= Point.y pt -> Box.y r = Point.y start).
Proof.
  intros Hdrag. cbv zeta. unfold mousemove, Math_abs. rewrite Hdrag.
  generalize (Point.x pt) (Point.y pt) (Point.x (selectionStartPosition st))
    (Point.y (selectionStartPosition st)).
  intros px py sx sy.
  destruct (ltb (px - sx) 0) eqn:Hx; destruct (ltb (py - sy) 0) eqn:Hy; cbn;
    [apply ltb_true in Hx | apply ltb_true in Hx
     | apply ltb_false in Hx | apply ltb_false in Hx];
    [apply ltb_true in Hy | apply ltb_false in Hy
     | apply ltb_true in Hy | apply ltb_false in Hy];
    (split; [reflexivity|]); (split; [reflexivity|]);
    (split; [qc_order|]); (split; [qc_order|]);
    (split; [qc_order|]); (split; [qc_order|]);
    (split; intros Hle; first [reflexivity | apply Qc_is_canon; qc_order]).
Qed.

(** *** Selecting by program *)

Lemma uniqueInOrder_from (ids seen : list oid) :
  NoDup seen ->
  let r := fold_left (fun seen i => if includes seen i then seen else seen ++ [i])
             ids seen in
  NoDup r /\ forall j, j ∈ r <-> j ∈ seen \/ j ∈ ids.
Proof.
  revert seen. induction ids as [|i ids IH]; intros seen Hnd; cbn.
  - split; [assumption|]. intros j. rewrite elem_of_nil. naive_solver.
  - destruct (includes seen i) eqn:Hinc.
    + apply includes_true in Hinc. destruct (IH seen Hnd) as [Hr Hmem].
      split; [assumption|]. intros j. rewrite (Hmem j), elem_of_cons.
      naive_solver.
    + apply includes_false in Hinc.
      destruct (IH (seen ++ [i]) (NoDup_snoc _ _ Hnd Hinc)) as [Hr Hmem].
      split; [assumption|]. intros j.
      rewrite (Hmem j), elem_of_app, list_elem_of_singleton, elem_of_cons.
      naive_solver.
Qed.

Lemma removeFirst_subset (i j : oid) (ids : list oid) :
  j ∈ removeFirst i ids -> j ∈ ids.
Proof.
  induction ids as [|a ids IH]; cbn; [easy|].
  case_bool_decide; rewrite !elem_of_cons; [now right|].
  intros [->|Hj]; [now left|]. right. now apply IH.
Qed.

Lemma removeEach_subset (given sel : list oid) (j : oid) :
  j ∈ fold_left (fun selected i => removeFirst i selected) given sel -> j ∈ sel.
Proof.
  revert sel. induction given as [|i given IH]; intros sel; cbn; [easy|].
  intros Hj. apply (removeFirst_subset i). now apply IH.
Qed.

(** X24.  [selectComponents] in mode RESET makes the given array the
    selection; in mode ADD the new selection holds every object once and is
    the union of the old selection and the given components; both leave the
    selected lines alone.  In mode SUB nothing is added: every component
    selected afterwards was selected before. *)
Theorem selectComponents_combines (components : list oid) (st : t O) :
  let reset := selectComponents components RESET st in
  let added := selectComponents components ADD st in
  let removed := selectComponents components SUB st in
  currentlySelectedComponents reset = components
  /\ currentlySelectedLines reset = currentlySelectedLines st
  /\ NoDup (currentlySelectedComponents added)
  /\ (forall j, j ∈ currentlySelectedComponents added <->
                j ∈ currentlySelectedComponents st \/ j ∈ components)
  /\ currentlySelectedLines added = currentlySelectedLines st
  /\ (forall j, j ∈ currentlySelectedComponents removed ->
                j ∈ currentlySelectedComponents st).
Proof.
  cbv zeta. unfold selectComponents, showSelection, hideSelection; cbn.
  destruct (uniqueInOrder_from (currentlySelectedComponents st ++ components) []
              (NoDup_nil_2)) as [Hnd Hmem].
  split; [reflexivity|]. split; [reflexivity|]. split; [exact Hnd|].
  split; [|split; [reflexivity|]].
  - intros j. unfold uniqueInOrder.
    rewrite (Hmem j), elem_of_app, elem_of_nil. naive_solver.
  - intros j. apply removeEach_subset.
Qed.

Lemma forEach_listed_last (body : O -> O) (ids : list oid) (h : oid -> O) (i : oid) :
  i ∈ ids -> exists o, forEach body ids h i = body o.
Proof.
  unfold forEach. revert h. induction ids as [|a ids IH]; intros h Hi.
  - now apply elem_of_nil in Hi.
  - cbn. destruct (decide (i ∈ ids)) as [Hin|Hout]; [now apply IH|].
    apply elem_of_cons in Hi as [->|Hi]; [|contradiction].
    exists (h a). etrans; [apply (forEach_lookup_notin body ids _ a Hout)|].
    apply fn_lookup_alter.
Qed.

Lemma showSelection_shown (st : t O) (i : oid) :
  i ∈ currentlySelectedComponents st \/ i ∈ currentlySelectedLines st ->
  exists o, heap (showSelection st) i = showBoundingBox o.
Proof.
  unfold showSelection; cbn. intros Hi.
  destruct (decide (i ∈ currentlySelectedLines st)) as [Hl|Hl].
  - now apply forEach_listed_last.
  - rewrite forEach_lookup_notin by assumption.
    apply forEach_listed_last. now destruct Hi.
Qed.

(** X25.  After [selectComponents], [selectLines] and [selectAll], the last
    thing that happened to every selected component and line is that its
    bounding box was shown. *)
Theorem selected_are_shown (given : list oid) (mode : SelectionMode)
    (st : t O) (i : oid) :
  let shown (st' : t O) :=
    i ∈ currentlySelectedComponents st' \/ i ∈ currentlySelectedLines st' ->
    exists o, heap st' i = showBoundingBox o in
  shown (selectComponents given mode st)
  /\ shown (selectLines given mode st)
  /\ shown (selectAll st).
Proof.
  cbv zeta. unfold selectComponents, selectLines, selectAll.
  repeat split; intros Hi; apply showSelection_shown; exact Hi.
Qed.

(** *** A click on the canvas *)

(** X26.  A press and a release of the left button at the same point,
    while selection is enabled, replace the selection, whatever it was and
    whichever modifier keys are held: afterwards exactly the objects of the
    document that meet the empty rectangle at that point are selected, the
    mode is RESET and selection is enabled. *)
Theorem click_selects_under_pointer (evt : MouseEvent) (st : t O) :
  button evt = 0%Z -> selectionEnabled st = true ->
  let st' := mouseup evt (mousedown evt st) in
  let box := Box.mk (Point.x (pointer evt)) (Point.y (pointer evt)) 0 0 in
  selectionMode st' = RESET
  /\ selectionEnabled st' = true
  /\ currentlyDragging st' = false
  /\ selectionRectangle st' = box
  /\ NoDup (currentlySelectedComponents st')
  /\ NoDup (currentlySelectedLines st')
  /\ (forall j, j ∈ currentlySelectedComponents st' <->
       j ∈ instances st /\ meets (heap st') box j)
  /\ (forall j, j ∈ currentlySelectedLines st' <->
       j ∈ lines st /\ meets (heap st') box j).
Proof.
  intros Hbutton Henabled. cbv zeta. unfold mouseup, mousedown.
  rewrite Hbutton.
  rewrite (bool_decide_eq_false_2 (0%Z = 2%Z)) by discriminate.
  rewrite (bool_decide_eq_true_2 (0%Z = 0%Z)) by reflexivity.
  cbv zeta. cbn [andb]. rewrite Henabled.
  cbn -[privUpdateSelection privShowSelection eqb].
  unfold eqb. rewrite !bool_decide_eq_true_2 by reflexivity.
  cbn -[privUpdateSelection privShowSelection].
  unfold activateSelection, deactivateSelection.
  cbn -[privUpdateSelection privShowSelection].
  match goal with
  | |- context [privUpdateSelection (privShowSelection ?s)] =>
      set (shown := privShowSelection s)
  end.
  destruct (privUpdateSelection_committed shown)
    as (Hc & Hl & Hmc & Hml & Hheap); [constructor | constructor |].
  rewrite Hheap.
  do 4 (split; [reflexivity|]). do 2 (split; [assumption|]).
  split; intros j; [rewrite (Hmc j) | rewrite (Hml j)];
    unfold committed; cbn; rewrite elem_of_nil; naive_solver.
Qed.

End SelectionMore.

Lemma twoSquares_selectionIsSet : selectionIsSet (twoSquares true).
Proof.
  repeat split.
  - apply NoDup_singleton.
  - apply NoDup_singleton.
  - intros i Hi Hc. simpl in Hi, Hc.
    apply list_elem_of_singleton in Hi, Hc. congruence.
Qed.

(** X15 on the two squares with nothing selected. *)
Lemma empty_selection_transforms_do_nothing_witness :
  SelectionController.rotateSelection (num 90) (twoSquares false)
  = Ok (twoSquares false)
  /\ SelectionController.flipSelection true (twoSquares false)
     = Ok (twoSquares false)
  /\ SelectionController.moveSelectionRel (Point.mk (num 3) (num 4)) (twoSquares false)
     = twoSquares false.
Proof.
  apply (empty_selection_transforms_do_nothing (num 90) true
           (Point.mk (num 3) (num 4)) (twoSquares false)).
  reflexivity.
Defined.

(** X16 on the marquee dragged over the line 1 in mode ADD. *)
Lemma privUpdateSelection_selects_witness :
  let st := draggingOverLine in
  let st' := SelectionController.privUpdateSelection st in
  NoDup (SelectionController.currentlySelectedComponents st')
  /\ NoDup (SelectionController.currentlySelectedLines st')
  /\ (forall j, j ∈ SelectionController.currentlySelectedComponents st' <->
       committed (SelectionController.selectionMode st) (SelectionController.heap st)
         (SelectionController.selectionRectangle st)
         (SelectionController.instances st)
         (SelectionController.currentlySelectedComponents st) j)
  /\ (forall j, j ∈ SelectionController.currentlySelectedLines st' <->
       committed (SelectionController.selectionMode st) (SelectionController.heap st)
         (SelectionController.selectionRectangle st)
         (SelectionController.lines st)
         (SelectionController.currentlySelectedLines st) j)
  /\ SelectionController.heap st' = SelectionController.heap st.
Proof.
  apply (privUpdateSelection_selects draggingOverLine);
    [apply NoDup_singleton | apply NoDup_nil_2].
Defined.

(** X17 on the marquee dragged over the line 1. *)
Lemma privUpdateSelection_idempotent_witness :
  SelectionController.privUpdateSelection
    (SelectionController.privUpdateSelection draggingOverLine)
  = SelectionController.privUpdateSelection draggingOverLine.
Proof.
  apply (privUpdateSelection_idempotent draggingOverLine);
    [apply NoDup_singleton | apply NoDup_nil_2].
Defined.

(** X18 on the marquee dragged over the line 1: the line is not selected
    yet, and the preview shows its bounding box. *)
Lemma preview_shows_what_release_selects_witness :
  SelectionController.isLineSelected 1%positive
    (SelectionController.privUpdateSelection draggingOverLine) = true
  /\ SelectionController.heap
       (SelectionController.privShowSelection draggingOverLine) 1%positive
     = SelectionController.showBoundingBox
         (SelectionController.heap draggingOverLine 1%positive).
Proof.
  assert (SelectionController.isLineSelected 1%positive
            (SelectionController.privUpdateSelection draggingOverLine) = true)
    as Hsel by (vm_compute; reflexivity).
  split; [exact Hsel|].
  destruct (preview_shows_what_release_selects draggingOverLine 1%positive)
    as [_ Hline].
  - apply NoDup_singleton.
  - apply NoDup_singleton.
  - apply NoDup_singleton.
  - apply NoDup_nil_2.
  - rewrite Hline, Hsel.
    + reflexivity.
    + apply list_elem_of_singleton. reflexivity.
    + intros Hin. apply list_elem_of_singleton in Hin. discriminate Hin.
Defined.

(** X19 on the two squares: the overall box reaches around the line 1. *)
Lemma getOverallBoundingBox_encloses_witness :
  exists b,
    SelectionController.getOverallBoundingBox (twoSquares true) = Some b
    /\ encloses b (SelectionController.bbox
                     (SelectionController.heap (twoSquares true) 1%positive)).
Proof.
  eexists. split; [reflexivity|].
  apply (getOverallBoundingBox_encloses (twoSquares true) _ 1%positive);
    [reflexivity|].
  left. apply list_elem_of_singleton. reflexivity.
Defined.

(** X20 on the two squares with the line selected: the component 2 stays
    as it is under all four transforms. *)
Lemma transforms_keep_unselected_witness :
  let st := onlyLineSelected in
  let untouched (r : result (SelectionController.t Outline)) :=
    match r with
    | Ok st' =>
        SelectionController.heap st' 2%positive = SelectionController.heap st 2%positive
        /\ st' = SelectionController.withHeap (SelectionController.heap st') st
    | Throw _ => True
    end in
  untouched (SelectionController.rotateSelection (num 90) st)
  /\ untouched (SelectionController.flipSelection true st)
  /\ untouched (Ok (SelectionController.moveSelectionRel (Point.mk (num 3) (num 4)) st))
  /\ untouched (SelectionController.moveSelectionTo (Point.mk (num 3) (num 4)) st).
Proof.
  apply (transforms_keep_unselected onlyLineSelected 2%positive (num 90) true
           (Point.mk (num 3) (num 4))).
  - intros Hin. apply list_elem_of_singleton in Hin. discriminate Hin.
  - apply not_elem_of_nil.
Defined.

(** X21 on the two squares, turned by 90 degrees. *)
Lemma rotateSelection_per_object_witness :
  exists st',
    SelectionController.rotateSelection (num 90) (twoSquares true) = Ok st'
    /\ exists pivot,
         SelectionController.centerOf
           (SelectionController.getOverallBoundingBox (twoSquares true)) = Ok pivot
         /\ SelectionController.heap st' 1%positive
            = SelectionController.moveRel
                (Point.minus
                   (SelectionController.rotatePoint (num 90) pivot
                      (boxCenter (SelectionController.heap (twoSquares true) 1%positive)))
                   (boxCenter (SelectionController.heap (twoSquares true) 1%positive)))
                (SelectionController.rotate (num 90)
                   (SelectionController.heap (twoSquares true) 1%positive)).
Proof.
  destruct (rotateSelection_per_object (num 90) (twoSquares true) eq_refl
              twoSquares_selectionIsSet)
    as (pivot & st' & Hpivot & Hrotate & Hlines & _).
  exists st'. split; [exact Hrotate|]. exists pivot. split; [exact Hpivot|].
  apply Hlines. apply list_elem_of_singleton. reflexivity.
Defined.

(** X22 on the two squares, moved to (3, 4). *)
Lemma moveSelectionTo_moves_each_once_witness :
  exists st',
    SelectionController.moveSelectionTo (Point.mk (num 3) (num 4)) (twoSquares true)
    = Ok st'
    /\ exists pivot,
         SelectionController.centerOf
           (SelectionController.getOverallBoundingBox (twoSquares true)) = Ok pivot
         /\ SelectionController.heap st' 2%positive
            = SelectionController.moveRel
                (Point.minus (Point.mk (num 3) (num 4)) pivot)
                (SelectionController.heap (twoSquares true) 2%positive).
Proof.
  destruct (moveSelectionTo_moves_each_once (Point.mk (num 3) (num 4))
              (twoSquares true) eq_refl twoSquares_selectionIsSet)
    as (pivot & st' & Hpivot & Hmove & Heach).
  exists st'. split; [exact Hmove|]. exists pivot. split; [exact Hpivot|].
  apply Heach. right. apply list_elem_of_singleton. reflexivity.
Defined.

(** X23 on the marquee started at (-1, -1), with the pointer moved up and
    left to (-5, -5). *)
Lemma mousemove_marquee_not_negative_witness :
  let pt := Point.mk (num (-5)) (num (-5)) in
  let start := SelectionController.selectionStartPosition draggingOverLine in
  let r := SelectionController.selectionRectangle
             (SelectionController.mousemove pt draggingOverLine) in
  Box.width r = Math_abs (Point.x pt - Point.x start)
  /\ Box.height r = Math_abs (Point.y pt - Point.y start)
  /\ 0 <= Box.width r /\ 0 <= Box.height r
  /\ Box.x r <= Point.x start /\ Box.y r <= Point.y start
  /\ (Point.x start <= Point.x pt -> Box.x r = Point.x start)
  /\ (Point.y start <= Point.y pt -> Box.y r = Point.y start).
Proof.
  apply (mousemove_marquee_not_negative (Point.mk (num (-5)) (num (-5)))
           draggingOverLine).
  reflexivity.
Defined.

(** X26 on the two squares, both selected: a click on the line 1 with the
    shift key held. *)
Lemma click_selects_under_pointer_witness :
  let st' := SelectionController.mouseup shiftPressAtLine
               (SelectionController.mousedown shiftPressAtLine (twoSquares true)) in
  let box := Box.mk (num 1) (num 1) 0 0 in
  SelectionController.selectionMode st' = SelectionController.RESET
  /\ SelectionController.selectionEnabled st' = true
  /\ SelectionController.currentlyDragging st' = false
  /\ SelectionController.selectionRectangle st' = box
  /\ NoDup (SelectionController.currentlySelectedComponents st')
  /\ NoDup (SelectionController.currentlySelectedLines st')
  /\ (forall j, j ∈ SelectionController.currentlySelectedComponents st' <->
       j ∈ SelectionController.instances (twoSquares true)
       /\ meets (SelectionController.heap st') box j)
  /\ (forall j, j ∈ SelectionController.currentlySelectedLines st' <->
       j ∈ SelectionController.lines (twoSquares true)
       /\ meets (SelectionController.heap st') box j).
Proof.
  apply (click_selects_under_pointer shiftPressAtLine (twoSquares true));
    reflexivity.
Defined.

(** ** More on component symbols *)

Section ComponentSymbolMore.
Import ComponentSymbol.
Context `{Units}.

(** *** The number pattern *)

Lemma allDigits_no_other (s : string) : allDigits s = true -> hasOtherChar s = false.
Proof.
  induction s as [|c s IH]; cbn; [reflexivity|].
  intros [Hc Hs]%andb_true_iff. rewrite Hc, (IH Hs). reflexivity.
Qed.

Lemma splitAtDot_parts (s pre post : string) :
  splitAtDot s = Some (pre, post) ->
  hasOtherChar s = hasOtherChar pre || hasOtherChar post.
Proof.
  revert pre. induction s as [|c s IH]; intros pre; cbn; [discriminate|].
  case_bool_decide as Hc.
  - intros [= <- <-]. subst c. cbn. reflexivity.
  - destruct (splitAtDot s) as [[pre' post']|]; [|discriminate].
    intros [= <- <-]. cbn. rewrite (IH pre' eq_refl).
    rewrite (bool_decide_eq_false_2 _ Hc). now rewrite orb_assoc.
Qed.

Lemma splitAtDot_None (s : string) :
  splitAtDot s = None -> allDigits s = true -> hasOtherChar s = false.
Proof. intros _. apply allDigits_no_other. Qed.

Lemma numberRegEx_no_other (s : string) :
  numberRegEx_test s = true -> hasOtherChar s = false.
Proof.
  unfold numberRegEx_test.
  destruct (splitAtDot s) as [[pre post]|] eqn:Hsplit.
  - intros [[Hpre _]%andb_true_iff Hpost]%andb_true_iff.
    rewrite (splitAtDot_parts _ _ _ Hsplit).
    now rewrite (allDigits_no_other _ Hpre), (allDigits_no_other _ Hpost).
  - intros [_ Hs]%andb_true_iff. now apply allDigits_no_other.
Qed.

(** X27.  A coordinate attribute with a character other than a digit and a
    full stop (a sign, a unit, a letter) is not turned into a number: the
    anchor keeps the text, and its point is computed from the text by the
    unit conversion of the drawing library. *)
Theorem parseAnchor_keeps_other_text (mid : Point.t) (anchorElement : Element)
    (sx sy : string) :
  getAttribute "x" anchorElement = Some sx ->
  getAttribute "y" anchorElement = Some sy ->
  hasOtherChar sx = true -> hasOtherChar sy = true ->
  x (parseAnchor mid anchorElement) = VString sx
  /\ y (parseAnchor mid anchorElement) = VString sy
  /\ point (parseAnchor mid anchorElement)
     = Point.mk (Point.x mid + lengthToPx sx) (Point.y mid - lengthToPx sy).
Proof.
  intros Hx Hy Hox Hoy. unfold parseAnchor; cbn [x y point].
  rewrite Hx, Hy. unfold parseCoordinate.
  destruct (numberRegEx_test sx) eqn:Ex;
    [apply numberRegEx_no_other in Ex; congruence|].
  destruct (numberRegEx_test sy) eqn:Ey;
    [apply numberRegEx_no_other in Ey; congruence|].
  auto.
Qed.

Lemma isDigit_value (c : ascii) :
  isDigit c = true -> (0 <= Z.of_nat (nat_of_ascii c) - 48 <= 9)%Z.
Proof.
  unfold isDigit. intros [H1 H2]%andb_true_iff.
  apply Nat.leb_le in H1, H2. lia.
Qed.

Lemma digitsValue_acc (s : string) (acc : Z) :
  allDigits s = true ->
  (digitsValue s acc = acc * 10 ^ Z.of_nat (String.length s) + digitsValue s 0
   /\ 0 <= digitsValue s 0 < 10 ^ Z.of_nat (String.length s))%Z.
Proof.
  revert acc. induction s as [|c s IH]; intros acc; cbn [allDigits digitsValue String.length].
  - intros _. cbn. lia.
  - intros [Hc Hs]%andb_true_iff. apply isDigit_value in Hc.
    destruct (IH (10 * acc + (Z.of_nat (nat_of_ascii c) - 48))%Z Hs) as [E1 _].
    destruct (IH (10 * 0 + (Z.of_nat (nat_of_ascii c) - 48))%Z Hs) as [E2 Hb].
    rewrite E1, E2. rewrite Nat2Z.inj_succ, Z.pow_succ_r by lia.
    split; nia.
Qed.

Lemma parseFloat_not_negative (s : string) :
  numberRegEx_test s = true -> 0 <= parseFloat s.
Proof.
  unfold numberRegEx_test, parseFloat.
  destruct (splitAtDot s) as [[pre post]|].
  - intros [[Hpre _]%andb_true_iff Hpost]%andb_true_iff.
    destruct (digitsValue_acc pre 0 Hpre) as [_ [Ha _]].
    destruct (digitsValue_acc post 0 Hpost) as [_ [Hb1 Hb2]].
    set (a := digitsValue pre 0) in *. set (b := digitsValue post 0) in *.
    set (k := (10 ^ Z.of_nat (String.length post))%Z) in *.
    assert (0 < k)%Z as Hk by (subst k; apply Z.pow_pos_nonneg; lia).
    assert (num k <> 0) as Hk0.
    { rewrite <- Z2Qc_inj_0. intros E%Z2Qc_inj. lia. }
    assert ((num a + num b / num k) * num k = num (a * k + b)) as Hmul.
    { rewrite Z2Qc_inj_add, Z2Qc_inj_mul. field. exact Hk0. }
    assert (0 < num k) as Hkpos.
    { rewrite <- Z2Qc_inj_0. apply (proj1 (Z2Qc_inj_lt _ _)). exact Hk. }
    apply (Qcmult_lt_0_le_reg_r _ _ (num k)); [exact Hkpos|].
    rewrite Hmul, Qcmult_0_l, <- Z2Qc_inj_0.
    apply (proj1 (Z2Qc_inj_le _ _)). nia.
  - intros [_ Hs]%andb_true_iff.
    destruct (digitsValue_acc s 0 Hs) as [_ [Ha _]].
    rewrite <- Z2Qc_inj_0. apply (proj1 (Z2Qc_inj_le _ _)). exact Ha.
Qed.

(** X28.  The number pattern admits no sign: coordinate attributes that
    match it become numbers that are not negative, so the point of the
    anchor lies neither to the left of nor below the mid point of the
    symbol. *)
Theorem parsed_coordinates_not_negative (mid : Point.t) (anchorElement : Element)
    (sx sy : string) :
  getAttribute "x" anchorElement = Some sx ->
  getAttribute "y" anchorElement = Some sy ->
  numberRegEx_test sx = true -> numberRegEx_test sy = true ->
  exists ax ay : Number,
    x (parseAnchor mid anchorElement) = VNumber ax
    /\ y (parseAnchor mid anchorElement) = VNumber ay
    /\ 0 <= ax /\ 0 <= ay
    /\ Point.x mid <= Point.x (point (parseAnchor mid anchorElement))
    /\ Point.y (point (parseAnchor mid anchorElement)) <= Point.y mid.
Proof.
  intros Hx Hy Hsx Hsy.
  pose proof (parseFloat_not_negative sx Hsx) as Hax.
  pose proof (parseFloat_not_negative sy Hsy) as Hay.
  exists (parseFloat sx), (parseFloat sy).
  unfold parseAnchor. cbn. rewrite Hx, Hy. cbn. rewrite Hsx, Hsy. cbn.
  generalize dependent (parseFloat sx). generalize dependent (parseFloat sy).
  intros ay Hay ax Hax. generalize (Point.x mid) (Point.y mid). intros mx my.
  repeat split; try assumption; qc_order.
Qed.

(** *** The default anchor *)

Lemma lastDefault_spec (anchors : list TikZAnchor) (current : option TikZAnchor) :
  lastDefault anchors current
  = match last (filter (fun a => isDefault a = true) anchors) with
    | Some a => Some a
    | None => current
    end.
Proof.
  unfold lastDefault. revert current.
  induction anchors as [|a anchors IH]; intros current; [reflexivity|].
  cbn [fold_left]. rewrite IH, filter_cons.
  destruct (isDefault a) eqn:Ha.
  - rewrite decide_True by reflexivity.
    destruct (filter _ anchors) as [|b l]; [reflexivity|].
    rewrite !last_cons. now destruct (last l).
  - rewrite decide_False by discriminate. reflexivity.
Qed.

(** X29.  The default anchor of a constructed symbol is the last anchor, in
    the order pins, additional anchors, text position, whose [isDefault]
    attribute is "true"; a symbol without such an anchor has no default
    anchor. *)
Theorem new_defaultAnchor_last_wins (symbolElement : Element)
    (baseInformation : option SymbolBaseInformation) (s : t) :
  new symbolElement baseInformation = Ok s ->
  _defaultAnchor s = last (filter (fun a => isDefault a = true) (parsedAnchors s)).
Proof.
  unfold new.
  set (b := match baseInformation with
            | Some b => b
            | None => getBaseInformation symbolElement
            end).
  destruct (svgMetadataElement b), (displayName b), (tikzName b); try discriminate.
  destruct (_ || _); [discriminate|]. intros [= <-].
  unfold parsedAnchors; cbn. rewrite lastDefault_spec.
  now destruct (last _).
Qed.

(** *** Path symbols *)

Lemma sortPin_fold (pins kept : list TikZAnchor) (sp ep : option TikZAnchor) :
  fold_left PathComponentSymbol.sortPin pins (kept, sp, ep)
  = (kept ++ filter (fun p => PathComponentSymbol.named "START" p = false
                              /\ PathComponentSymbol.named "END" p = false) pins,
     match last (filter (fun p => PathComponentSymbol.named "START" p = true) pins) with
     | Some p => Some p
     | None => sp
     end,
     match last (filter (fun p => PathComponentSymbol.named "START" p = false
                                  /\ PathComponentSymbol.named "END" p = true) pins) with
     | Some p => Some p
     | None => ep
     end).
Proof.
  revert kept sp ep. induction pins as [|p pins IH]; intros kept sp ep.
  - cbn. now rewrite app_nil_r.
  - cbn [fold_left]. unfold PathComponentSymbol.sortPin at 2.
    rewrite !filter_cons.
    destruct (PathComponentSymbol.named "START" p) eqn:Hs.
    + rewrite IH. rewrite decide_False by (intros [? ?]; discriminate).
      rewrite decide_True by reflexivity.
      rewrite decide_False by (intros [? ?]; discriminate).
      destruct (filter (fun p => PathComponentSymbol.named "START" p = true) pins)
        as [|b l]; [reflexivity|].
      rewrite !last_cons. now destruct (last l).
    + destruct (PathComponentSymbol.named "END" p) eqn:He.
      * rewrite IH. rewrite decide_False by (intros [? ?]; discriminate).
        rewrite decide_False by discriminate.
        rewrite decide_True by (split; reflexivity).
        destruct (filter (fun p => PathComponentSymbol.named "START" p = false
                                   /\ PathComponentSymbol.named "END" p = true) pins)
          as [|b l]; [reflexivity|].
        rewrite !last_cons. now destruct (last l).
      * rewrite IH. rewrite decide_True by (split; reflexivity).
        rewrite decide_False by discriminate.
        rewrite decide_False by (intros [? ?]; discriminate).
        now rewrite <- app_assoc.
Qed.

(** X30.  A path symbol is constructed exactly when the component symbol
    is.  Its pins are the pins of the component symbol that are named
    neither START nor END, in their order; [startPin] is the last pin named
    START and [endPin] the last pin named END, if there is one. *)
Theorem PathComponentSymbol_new_sorts_pins (symbolElement : Element)
    (baseInformation : option SymbolBaseInformation) :
  match PathComponentSymbol.new symbolElement baseInformation,
        new symbolElement baseInformation with
  | Ok ps, Ok s =>
      _pins (PathComponentSymbol.symbol ps)
      = filter (fun p => name p <> Some "START"%string /\ name p <> Some "END"%string)
               (_pins s)
      /\ PathComponentSymbol.startPin ps
         = last (filter (fun p => name p = Some "START"%string) (_pins s))
      /\ PathComponentSymbol.endPin ps
         = last (filter (fun p => name p = Some "END"%string) (_pins s))
      /\ _additionalAnchors (PathComponentSymbol.symbol ps) = _additionalAnchors s
      /\ _defaultAnchor (PathComponentSymbol.symbol ps) = _defaultAnchor s
  | Throw e, Throw e' => e = e'
  | _, _ => False
  end.
Proof.
  unfold PathComponentSymbol.new.
  destruct (new symbolElement baseInformation) as [s|e]; cbn; [|reflexivity].
  rewrite sortPin_fold. cbn.
  unfold PathComponentSymbol.named.
  repeat split.
  - apply list_filter_iff. intros p. rewrite !bool_decide_eq_false. reflexivity.
  - rewrite (list_filter_iff _ (fun p => name p = Some "START"%string))
      by (intros p; apply bool_decide_eq_true).
    now destruct (last _).
  - rewrite (list_filter_iff _ (fun p => name p = Some "END"%string)).
    + now destruct (last _).
    + intros p. rewrite bool_decide_eq_false, bool_decide_eq_true.
      split; [now intros [_ ?]|]. intros E. split; [|assumption].
      rewrite E. discriminate.
Qed.

End ComponentSymbolMore.

(** X27 on the pin with x = "0.5cm" and y = "-1". *)
Lemma parseAnchor_keeps_other_text_witness :
  let mid := Point.mk (num 10) (num 10) in
  let anchor := ComponentSymbol.parseAnchor (H := plainUnits) mid pinWithUnit in
  ComponentSymbol.x anchor = ComponentSymbol.VString "0.5cm"
  /\ ComponentSymbol.y anchor = ComponentSymbol.VString "-1"
  /\ ComponentSymbol.point anchor
     = Point.mk (Point.x mid + ComponentSymbol.lengthToPx (Units := plainUnits) "0.5cm")
                (Point.y mid - ComponentSymbol.lengthToPx (Units := plainUnits) "-1").
Proof.
  apply (parseAnchor_keeps_other_text (H := plainUnits)); reflexivity.
Defined.

(** X28 on the pin G at x = 2, y = 3 of a symbol with mid (10, 10). *)
Lemma parsed_coordinates_not_negative_witness :
  let mid := Point.mk (num 10) (num 10) in
  let anchor := ComponentSymbol.parseAnchor (H := plainUnits) mid pinG in
  exists ax ay : Number,
    ComponentSymbol.x anchor = ComponentSymbol.VNumber ax
    /\ ComponentSymbol.y anchor = ComponentSymbol.VNumber ay
    /\ 0 <= ax /\ 0 <= ay
    /\ Point.x mid <= Point.x (ComponentSymbol.point anchor)
    /\ Point.y (ComponentSymbol.point anchor) <= Point.y mid.
Proof.
  apply (parsed_coordinates_not_negative (H := plainUnits)
           (Point.mk (num 10) (num 10)) pinG "2" "3"); reflexivity.
Defined.

(** X29 on the symbol with two default pins: the later pin B is the
    default anchor. *)
Lemma new_defaultAnchor_last_wins_witness :
  exists s,
    ComponentSymbol.new (H := plainUnits) twoDefaultPins None = Ok s
    /\ ComponentSymbol._defaultAnchor s
       = last (filter (fun a => ComponentSymbol.isDefault a = true) (parsedAnchors s))
    /\ (ComponentSymbol.name <$> ComponentSymbol._defaultAnchor s) = Some (Some "B"%string).
Proof.
  eexists. split; [reflexivity|]. split; [|reflexivity].
  apply (new_defaultAnchor_last_wins (H := plainUnits) twoDefaultPins None).
  reflexivity.
Defined.
